(** * MedTrack: dose schedule, classification and recording

    A shallow embedding of the scheduling and dose-logging core of the
    MedTrack application:

    - the dose-logging page ([DoseLogging], pages/DoseLogging.tsx),
    - the reminders page ([Reminders], pages/Reminders.tsx),
    - the stored procedures, tables and policies of supabase/schema.sql,
      and the REST interface in front of them ([Store]),
    - the client library ([Client], lib/supabase.ts), the dashboard
      ([Dashboard], pages/Dashboard.tsx) and the reports page ([Reports],
      pages/Reports.tsx).

    Modelling conventions.

    - An instant (a JavaScript [Date], a [timestamptz] value) is the number
      of milliseconds since the epoch, a [Z].  Every instant that reaches the
      database is produced by [Date.toISOString], which has millisecond
      resolution.
    - Local time is a fixed offset [tz] (milliseconds east of UTC) from UTC:
      daylight-saving transitions are not modelled.
    - One synchronous pass of a page reads the clock as one instant [now].
    - JavaScript numbers are IEEE 754 doubles: the time of day of a dose is
      computed with Rocq's primitive binary64 floats.
    - SQL [double precision] aggregates are idealised as exact rationals. *)

From Stdlib Require Import ZArith List Bool String Lia QArith Qround.
From Stdlib Require Import Floats Uint63 Permutation Sorted.
Import ListNotations.

Local Open Scope Z_scope.

(** ** JavaScript numbers *)

Module JsNumber.

(** A (small, non-negative) integer as a double. *)
Definition of_Z (z : Z) : float := PrimFloat.of_uint63 (Uint63.of_Z z).

(** [ToIntegerOrInfinity] on a finite double: truncation toward zero.
    On the non-negative doubles used here it is also [Math.floor]. *)
Definition trunc (x : float) : Z :=
  match Prim2SF x with
  | S754_finite s m e =>
      let a := if 0 <=? e then Z.pos m * 2 ^ e else Z.pos m / 2 ^ (- e) in
      if s then - a else a
  | _ => 0
  end.

(** [x % 1] for a non-negative finite double: the fractional part, which
    is representable, so the subtraction is exact. *)
Definition mod1 (x : float) : float := PrimFloat.sub x (of_Z (trunc x)).

End JsNumber.

(** ** JavaScript values read from a JSON response *)

Module Js.

Local Unset Elimination Schemes.
Inductive Json : Type :=
| JsNull
| JsBool (b : bool)
| JsNum (q : Q)
| JsStr (s : string)
| JsArr (items : list Json)
| JsObj (fields : list (string * Json)).
Local Set Elimination Schemes.

(** [Boolean(v)]. *)
Definition truthy (v : Json) : bool :=
  match v with
  | JsNull => false
  | JsBool b => b
  | JsNum q => negb (Qeq_bool q 0)
  | JsStr s => negb (String.eqb s EmptyString)
  | JsArr _ => true
  | JsObj _ => true
  end.

(** [v[k]] for an own property: a field of an object, the [length] of an
    array or a string, the first element of an array, the first character
    of a string.  [None] is [undefined].  Inherited properties are not
    modelled. *)
Definition member (v : Json) (k : string) : option Json :=
  match v with
  | JsObj fields =>
      option_map snd (find (fun kv => String.eqb (fst kv) k) fields)
  | JsArr items =>
      if String.eqb k "length"
      then Some (JsNum (inject_Z (Z.of_nat (List.length items))))
      else if String.eqb k "0" then nth_error items 0 else None
  | JsStr s =>
      if String.eqb k "length"
      then Some (JsNum (inject_Z (Z.of_nat (String.length s))))
      else if String.eqb k "0"
      then match s with
           | EmptyString => None
           | String c _ => Some (JsStr (String c EmptyString))
           end
      else None
  | _ => None
  end.

(** [v > 0]: [undefined] and [null] compare false, a boolean as 0 or 1.
    Strings, arrays and objects are converted by [ToPrimitive], which is
    not modelled: the comparison is then [None]. *)
Definition gt_zero (v : option Json) : option bool :=
  match v with
  | None => Some false
  | Some JsNull => Some false
  | Some (JsBool b) => Some b
  | Some (JsNum q) => Some (negb (Qle_bool q 0))
  | Some _ => None
  end.

(** [data && data.length > 0]. *)
Definition hasRows (data : Json) : option bool :=
  if truthy data then gt_zero (member data "length") else Some false.

End Js.

(** ** Instants and calendar helpers (date-fns, [Date]) *)

Definition Instant := Z.

Definition msPerMinute : Z := 60000.
Definition msPerHour : Z := 3600000.
Definition msPerDay : Z := 86400000.

Module DateFns.

(** [addHours d n] and [addDays d n] of date-fns. *)
Definition addHours (d : Instant) (n : Z) : Instant := d + n * msPerHour.
Definition addDays (d : Instant) (n : Z) : Instant := d + n * msPerDay.

(** [d.setHours(0, 0, 0, 0)]: local midnight of the local day of [d]. *)
Definition startOfDay (tz : Z) (d : Instant) : Instant :=
  d - (d + tz) mod msPerDay.

(** [d.setHours(23, 59, 59, 999)]. *)
Definition endOfDay (tz : Z) (d : Instant) : Instant :=
  startOfDay tz d + msPerDay - 1.

(** [d.setHours(h, m, 0, 0)] for a [d] that is a local midnight. *)
Definition setHours (midnight : Instant) (h m : Z) : Instant :=
  midnight + h * msPerHour + m * msPerMinute.

(** [s.slice(0, 16)] of an ISO-8601 UTC rendering, [YYYY-MM-DDTHH:mm]: two
    instants have the same prefix exactly when they fall in the same UTC
    minute, so the prefix is represented by the minute number. *)
Definition isoMinute (d : Instant) : Z := d / msPerMinute.

(** [isWithinInterval(t, {start, end})] of date-fns, for [start <= end]. *)
Definition isWithinInterval (t start_ end_ : Instant) : bool :=
  (start_ <=? t) && (t <=? end_).

(** [isSameDay], [isToday], [isTomorrow], [isFuture] of date-fns. *)
Definition isSameDay (tz : Z) (a b : Instant) : bool :=
  startOfDay tz a =? startOfDay tz b.
Definition isToday (tz : Z) (now d : Instant) : bool := isSameDay tz d now.
Definition isTomorrow (tz : Z) (now d : Instant) : bool :=
  isSameDay tz d (addDays now 1).
Definition isFuture (now d : Instant) : bool := now <? d.

End DateFns.
Import DateFns.

(** [d.toISOString().split('T')[0]]: the UTC calendar date of an instant,
    as a day number. *)
Definition isoDate (d : Instant) : Z := d / msPerDay.

(** ** Stable sort by an integer key ([Array.prototype.sort] with the
    comparator [(a, b) => key(a) - key(b)]) *)

Section SortBy.
Context {A : Type} (key : A -> Z).

Fixpoint insert_by (x : A) (l : list A) : list A :=
  match l with
  | [] => [x]
  | y :: t => if key x <=? key y then x :: y :: t else y :: insert_by x t
  end.

Definition sort_by (l : list A) : list A := fold_right insert_by [] l.

Definition key_le (a b : A) : Prop := key a <= key b.
End SortBy.

(** Stable sort by a boolean order ([ORDER BY] under the collation [leb] of
    the database). *)
Section SortLeb.
Context {A : Type} (leb : A -> A -> bool).

Fixpoint insert_leb (x : A) (l : list A) : list A :=
  match l with
  | [] => [x]
  | y :: t => if leb x y then x :: y :: t else y :: insert_leb x t
  end.

Definition sort_leb (l : list A) : list A := fold_right insert_leb [] l.
End SortLeb.

(** ** Rows of the tables (supabase/schema.sql, types/database.types.ts) *)

(** A row of [medications].  Dates are day numbers since the epoch. *)
Record Medication : Type := mkMedication {
  med_id : string;
  med_user_id : string;
  med_name : string;
  med_dose : string;
  frequency_per_day : Z;
  start_date : Z;
  end_date : option Z;
  category_id : option string
}.

(** A row of [dose_logs]. *)
Record DoseLog : Type := mkDoseLog {
  log_id : nat;
  medication_id : string;
  timestamp_taken : Instant;
  scheduled_time : Instant;
  taken_on_time : bool;
  reward_earned : option bool;
  created_at : Instant
}.

(** ** The data layer (supabase/schema.sql) *)

Module Store.

(** The tables the core uses; [next_id] stands for [gen_random_uuid()],
    which yields a key not yet in [dose_logs]. *)
Record Db : Type := mkDb {
  medications : list Medication;
  dose_logs : list DoseLog;
  next_id : nat
}.

(** The errors a statement can end with.  [UniqueViolation] is what a
    unique constraint raises (the DuplicateLogError of the specification);
    [UnknownColumn] is the rejection of a payload key that is no column;
    [InvalidTextRepresentation] (22P02) is a value that is not of the
    column's type; [UndefinedFunction] (42883) is a call that no declared
    function matches. *)
Inductive Error : Type :=
| NotAuthorized
| ForeignKeyViolation
| NotNullViolation
| UniqueViolation
| RlsViolation
| UnknownColumn (column : string)
| InvalidTextRepresentation
| UndefinedFunction.

Inductive Result (A : Type) : Type :=
| Ok (a : A)
| Err (e : Error).
Arguments Ok {A} a.
Arguments Err {A} e.

(** SQL comparison of nullable values: NULL if either side is NULL. *)
Definition sql_neq (a b : option string) : option bool :=
  match a, b with
  | Some x, Some y => Some (negb (String.eqb x y))
  | _, _ => None
  end.

Definition sql_eq (a b : option string) : option bool :=
  match a, b with
  | Some x, Some y => Some (String.eqb x y)
  | _, _ => None
  end.

(** [IF c THEN ...]: the branch is taken only when [c] is true. *)
Definition sql_if (c : option bool) : bool :=
  match c with
  | Some true => true
  | _ => false
  end.

(** [SELECT user_id INTO v FROM medications WHERE id = p]. *)
Definition select_user_id (db : Db) (p_medication_id : string)
    : option string :=
  option_map med_user_id
    (find (fun m => String.eqb (med_id m) p_medication_id) (medications db)).

(** [INSERT INTO dose_logs (medication_id, timestamp_taken, scheduled_time,
    taken_on_time, reward_earned) VALUES (...)] under the constraints the
    table declares: a generated primary key, NOT NULL columns, and the
    foreign key [medication_id REFERENCES medications(id)].  No constraint
    mentions [(medication_id, scheduled_time)]. *)
Definition insert_dose_log (clock : Instant) (db : Db)
    (medication_id : string) (timestamp_taken scheduled_time : Instant)
    (taken_on_time : bool) (reward_earned : option bool)
    : Result DoseLog * Db :=
  if existsb (fun m => String.eqb (med_id m) medication_id) (medications db)
  then
    let row := mkDoseLog (next_id db) medication_id timestamp_taken
                 scheduled_time taken_on_time reward_earned clock in
    (Ok row, mkDb (medications db) (dose_logs db ++ [row]) (S (next_id db)))
  else (Err ForeignKeyViolation, db).

(** The JSON object [log_dose] returns. *)
Record LogDoseJson : Type := mkLogDoseJson {
  success : bool;
  json_taken_on_time : bool;
  json_reward_earned : bool
}.

(** [log_dose(p_medication_id, p_scheduled_time, p_actual_time)], run for
    the caller [auth_uid] ([auth.uid()], NULL when not signed in) at
    [clock].  The function is SECURITY DEFINER: its insert is not subject
    to the row-level policies.  An exception leaves the tables unchanged. *)
Definition log_dose (auth_uid : option string) (clock : Instant) (db : Db)
    (p_medication_id : string) (p_scheduled_time p_actual_time : Instant)
    : Result LogDoseJson * Db :=
  let v_user_id := select_user_id db p_medication_id in
  if sql_if (sql_neq v_user_id auth_uid) then (Err NotAuthorized, db)
  else
    let v_taken_on_time := p_actual_time <=? p_scheduled_time + 4 * msPerHour in
    let v_reward_earned := v_taken_on_time in
    match insert_dose_log clock db p_medication_id p_actual_time
            p_scheduled_time v_taken_on_time (Some v_reward_earned) with
    | (Ok _, db') => (Ok (mkLogDoseJson true v_taken_on_time v_reward_earned), db')
    | (Err e, db') => (Err e, db')
    end.

(** *** Inserts through the REST interface *)

(** A value of a payload; a uuid of [dose_logs] is given as the key it
    denotes. *)
Inductive JsonValue : Type :=
| JString (s : string)
| JBool (b : bool)
| JInstant (t : Instant)
| JNull
| JUuid (key : nat).

Definition Payload := list (string * JsonValue).

Definition dose_logs_columns : list string :=
  ["id"; "medication_id"; "timestamp_taken"; "scheduled_time";
   "taken_on_time"; "reward_earned"; "created_at"]%string.

Definition get (p : Payload) (column : string) : option JsonValue :=
  option_map snd (find (fun kv => String.eqb (fst kv) column) p).

Definition unknown_column (p : Payload) : option string :=
  option_map fst
    (find (fun kv => negb (existsb (String.eqb (fst kv)) dose_logs_columns)) p).

(** The schema issues [ALTER TABLE ... ENABLE ROW LEVEL SECURITY] for
    [auth.users] alone.  The policies it creates on the other tables are
    stored, but a policy applies only to a table whose row security is
    enabled. *)
Definition row_security (table : string) : bool :=
  String.eqb table "auth.users".

(** The policy "Users can insert own dose logs":
    [WITH CHECK (EXISTS (SELECT 1 FROM medications WHERE medications.id =
    dose_logs.medication_id AND medications.user_id = auth.uid()))]. *)
Definition insert_policy (auth_uid : option string) (db : Db)
    (medication_id : string) : bool :=
  existsb
    (fun m => String.eqb (med_id m) medication_id
              && sql_if (sql_eq (Some (med_user_id m)) auth_uid))
    (medications db).

(** [INSERT INTO dose_logs (id, ...) VALUES (key, ...)], the insert of a row
    whose primary key the statement gives: the key must not be in the table
    (the index is checked before the foreign key).  Keys generated later
    stay clear of it. *)
Definition insert_dose_log_keyed (key : nat) (created_at : Instant) (db : Db)
    (medication_id : string) (timestamp_taken scheduled_time : Instant)
    (taken_on_time : bool) (reward_earned : option bool)
    : Result DoseLog * Db :=
  if existsb (fun l => Nat.eqb (log_id l) key) (dose_logs db)
  then (Err UniqueViolation, db)
  else if existsb (fun m => String.eqb (med_id m) medication_id)
            (medications db)
  then
    let row := mkDoseLog key medication_id timestamp_taken scheduled_time
                 taken_on_time reward_earned created_at in
    (Ok row, mkDb (medications db) (dose_logs db ++ [row])
               (Nat.max (next_id db) (S key)))
  else (Err ForeignKeyViolation, db).

(** The value of [created_at]: the one the payload gives, the default
    (the time of the statement) when the payload has no such key. *)
Definition sent_created_at (clock : Instant) (p : Payload) : Result Instant :=
  match get p "created_at" with
  | None => Ok clock
  | Some (JInstant t) => Ok t
  | Some JNull => Err NotNullViolation
  | Some _ => Err InvalidTextRepresentation
  end.

(** [supabase.from('dose_logs').insert([payload])]: every key of the
    payload must name a column of the table; the NOT NULL columns without a
    default must be given; a column with a default takes the value the
    payload gives, when it gives one; the row must pass the insert policy
    if row security is enabled for the table. *)
Definition from_dose_logs_insert (auth_uid : option string) (clock : Instant)
    (db : Db) (p : Payload) : Result DoseLog * Db :=
  match unknown_column p with
  | Some c => (Err (UnknownColumn c), db)
  | None =>
      match get p "medication_id", get p "timestamp_taken",
            get p "scheduled_time", get p "taken_on_time" with
      | Some (JString m), Some (JInstant t), Some (JInstant s), Some (JBool b) =>
          if negb (row_security "dose_logs") || insert_policy auth_uid db m
          then
            let reward :=
              match get p "reward_earned" with
              | Some (JBool r) => Some r
              | Some _ => None
              | None => Some false
              end in
            match sent_created_at clock p with
            | Err e => (Err e, db)
            | Ok created =>
                match get p "id" with
                | None => insert_dose_log created db m t s b reward
                | Some (JUuid key) =>
                    insert_dose_log_keyed key created db m t s b reward
                | Some JNull => (Err NotNullViolation, db)
                | Some _ => (Err InvalidTextRepresentation, db)
                end
            end
          else (Err RlsViolation, db)
      | _, _, _, _ => (Err NotNullViolation, db)
      end
  end.

(** *** The adherence summary *)

(** A row of [dose_logs dl JOIN medications m ON m.id = dl.medication_id]. *)
Definition join (db : Db) : list (DoseLog * Medication) :=
  flat_map
    (fun dl =>
       map (fun m => (dl, m))
         (filter (fun m => String.eqb (med_id m) (medication_id dl))
            (medications db)))
    (dose_logs db).

(** [DATE_TRUNC('day', t)], in the UTC session of the database, as a day
    number. *)
Definition date_trunc_day (t : Instant) : Z := t / msPerDay.

(** The rows the [WHERE] clause keeps:
    [m.user_id = p_user_id AND scheduled_time >= NOW() - INTERVAL '7 days']. *)
Definition in_window (p_user_id : string) (clock : Instant)
    (r : DoseLog * Medication) : bool :=
  String.eqb (med_user_id (snd r)) p_user_id
  && (clock - 7 * msPerDay <=? scheduled_time (fst r)).

Definition selected (db : Db) (p_user_id : string) (clock : Instant)
    : list (DoseLog * Medication) :=
  filter (in_window p_user_id clock) (join db).

(** The grouping key [DATE_TRUNC('day', scheduled_time), m.name]. *)
Definition group_key (r : DoseLog * Medication) : Z * string :=
  (date_trunc_day (scheduled_time (fst r)), med_name (snd r)).

Definition key_dec (a b : Z * string) : {a = b} + {a <> b}.
Proof. decide equality; [apply string_dec | apply Z.eq_dec]. Defined.

Definition key_eqb (a b : Z * string) : bool :=
  if key_dec a b then true else false.

(** A row of the common table expression [adherence_data]. *)
Record AdherenceData : Type := mkAdherenceData {
  date : Z;
  total_doses : Z;
  on_time_doses : Z;           (* the column taken_on_time *)
  medication_name : string;
  missed_count : Z
}.

(** [COUNT ... FILTER (WHERE p)], the number of rows that satisfy [p], over a list of rows. *)
Definition count {A : Type} (p : A -> bool) (l : list A) : Z :=
  Z.of_nat (List.length (filter p l)).

Definition group_rows (rows : list (DoseLog * Medication)) (k : Z * string)
    : list (DoseLog * Medication) :=
  filter (fun r => key_eqb (group_key r) k) rows.

Definition aggregate (rows : list (DoseLog * Medication)) (k : Z * string)
    : AdherenceData :=
  let g := group_rows rows k in
  mkAdherenceData (fst k)
    (count (fun _ => true) g)
    (count (fun r => taken_on_time (fst r)) g)
    (snd k)
    (count (fun r => negb (taken_on_time (fst r))) g).

(** [GROUP BY]: one row per distinct key. *)
Definition adherence_data (db : Db) (p_user_id : string) (clock : Instant)
    : list AdherenceData :=
  let rows := selected db p_user_id clock in
  map (aggregate rows) (nodup key_dec (map group_key rows)).

(** Rounding of a non-negative [x] to two decimals, as
    [round(numeric, integer)] does it. *)
Definition round2 (x : Q) : Q :=
  Qmake (Qfloor (x * 100 + (1 # 2))%Q) 100.

(** [(taken_on_time::float / total_doses) * 100]. *)
Definition rate (a : AdherenceData) : Q :=
  (inject_Z (on_time_doses a) / inject_Z (total_doses a) * 100)%Q.

(** [AVG]: NULL over no rows. *)
Definition avg (l : list Q) : option Q :=
  match l with
  | [] => None
  | _ => Some (fold_right Qplus 0%Q l / inject_Z (Z.of_nat (List.length l)))%Q
  end.

(** [json_agg]: NULL over no rows. *)
Definition json_agg {A : Type} (l : list A) : option (list A) :=
  match l with
  | [] => None
  | _ => Some l
  end.

(** [AVG(CASE WHEN total_doses > 0
          THEN (taken_on_time::float / total_doses) * 100 ELSE 0 END)],
    the double precision value the statement passes to [ROUND]. *)
Definition weekly_average (data : list AdherenceData) : option Q :=
  avg (map (fun a => if total_doses a >? 0 then rate a else 0%Q) data).

(** The function a call [ROUND(x, 2)] resolves to, by the type of [x].  The
    functions of that name with two arguments are [round(numeric, integer)]
    alone ([round(double precision)] takes one), and a double precision
    value is not cast to numeric implicitly.  Both calls of the statement
    have a double precision first argument: [AVG] of a double precision
    [CASE], and a product with a [::float] factor. *)
Inductive SqlType : Type :=
| Numeric
| DoublePrecision.

Definition resolve_round (x : SqlType) : option (Q -> Q) :=
  match x with
  | Numeric => Some round2
  | DoublePrecision => None
  end.

(** [ROUND(AVG(...), 2)], given the function the call resolves to. *)
Definition weekly_adherence (round : Q -> Q) (data : list AdherenceData)
    : option Q :=
  option_map round (weekly_average data).

(** [SELECT medication_name, SUM(missed_count) AS missed_count
     FROM adherence_data GROUP BY medication_name
     ORDER BY missed_count DESC LIMIT 5].
    SQL leaves the order of rows with equal counts open; the sort used here
    keeps them in the order of the grouping. *)
Definition sum_missed (data : list AdherenceData) (name : string) : Z :=
  fold_right Z.add 0
    (map missed_count
       (filter (fun a => String.eqb (medication_name a) name) data)).

Definition missed_by_name (data : list AdherenceData) : list (string * Z) :=
  map (fun n => (n, sum_missed data n))
    (nodup string_dec (map medication_name data)).

Definition most_missed (data : list AdherenceData) : list (string * Z) :=
  firstn 5 (sort_by (fun r => - snd r) (missed_by_name data)).

(** [date] and [ROUND((taken_on_time::float / total_doses) * 100, 2)] of
    every row, given the function the call resolves to. *)
Definition calendar_data (round : Q -> Q) (data : list AdherenceData)
    : list (Z * Q) :=
  map (fun a => (date a, round (rate a))) data.

Record AdherenceSummary : Type := mkAdherenceSummary {
  json_weekly_adherence : option Q;
  json_most_missed : option (list (string * Z));
  json_calendar_data : option (list (Z * Q))
}.

(** [get_adherence_summary(p_user_id)] at [clock].  The body is one
    statement, analysed as a whole when the function first runs it: a call
    that resolves to no function raises undefined_function before a row is
    read. *)
Definition get_adherence_summary (clock : Instant) (db : Db)
    (p_user_id : string) : Result AdherenceSummary :=
  match resolve_round DoublePrecision with
  | None => Err UndefinedFunction
  | Some round =>
      let data := adherence_data db p_user_id clock in
      Ok (mkAdherenceSummary (weekly_adherence round data)
            (json_agg (most_missed data))
            (json_agg (calendar_data round data)))
  end.

(** *** Reading through the REST interface *)

(** The policy "Users can view own dose logs":
    [USING (EXISTS (SELECT 1 FROM medications WHERE medications.id =
    dose_logs.medication_id AND medications.user_id = auth.uid()))]. *)
Definition select_policy (auth_uid : option string) (db : Db) (l : DoseLog)
    : bool :=
  existsb
    (fun m => String.eqb (med_id m) (medication_id l)
              && sql_if (sql_eq (Some (med_user_id m)) auth_uid))
    (medications db).

(** The policy "Users can view own medications":
    [USING (auth.uid() = user_id)]. *)
Definition medications_select_policy (auth_uid : option string)
    (m : Medication) : bool :=
  sql_if (sql_eq auth_uid (Some (med_user_id m))).

(** [supabase.from('dose_logs').select('*')]: the rows of the table, those
    that pass the select policy if row security is enabled for the table. *)
Definition from_dose_logs_select (auth_uid : option string) (db : Db)
    : list DoseLog :=
  filter (fun l => negb (row_security "dose_logs") || select_policy auth_uid db l)
    (dose_logs db).

(** [supabase.from('medications').select('*')], likewise. *)
Definition from_medications_select (auth_uid : option string) (db : Db)
    : list Medication :=
  filter (fun m => negb (row_security "medications")
                   || medications_select_policy auth_uid m)
    (medications db).

(** *** Calling the functions through the REST interface *)

(** [supabase.rpc(name, args)] reaches the function [name] whose parameter
    names are exactly the keys of [args]. *)
Inductive RpcError : Type :=
| NoSuchFunction
| InvalidInput
| Raised (e : Error).

Inductive RpcResult (A : Type) : Type :=
| RpcOk (a : A)
| RpcErr (e : RpcError).
Arguments RpcOk {A} a.
Arguments RpcErr {A} e.

Definition same_names (given params : list string) : bool :=
  forallb (fun p => existsb (String.eqb p) given) params
  && forallb (fun g => existsb (String.eqb g) params) given.

Definition log_dose_params : list string :=
  ["p_medication_id"; "p_scheduled_time"; "p_actual_time"]%string.

Definition rpc_log_dose (auth_uid : option string) (clock : Instant) (db : Db)
    (args : Payload) : RpcResult LogDoseJson * Db :=
  if same_names (map fst args) log_dose_params then
    match get args "p_medication_id", get args "p_scheduled_time",
          get args "p_actual_time" with
    | Some (JString m), Some (JInstant s), Some (JInstant a) =>
        match log_dose auth_uid clock db m s a with
        | (Ok json, db') => (RpcOk json, db')
        | (Err e, db') => (RpcErr (Raised e), db')
        end
    | _, _, _ => (RpcErr InvalidInput, db)
    end
  else (RpcErr NoSuchFunction, db).

(** The JSON object [get_adherence_summary] builds with
    [json_build_object]; a date is rendered as its day number. *)
Definition json_nullable {A : Type} (f : A -> Js.Json) (v : option A)
    : Js.Json :=
  match v with
  | Some a => f a
  | None => Js.JsNull
  end.

Definition summary_json (s : AdherenceSummary) : Js.Json :=
  Js.JsObj
    [ ("weekly_adherence", json_nullable Js.JsNum (json_weekly_adherence s));
      ("most_missed",
       json_nullable
         (fun l => Js.JsArr
            (map (fun r : string * Z =>
                    Js.JsObj [ ("medication_name", Js.JsStr (fst r));
                               ("missed_count", Js.JsNum (inject_Z (snd r))) ]%string)
               l))
         (json_most_missed s));
      ("calendar_data",
       json_nullable
         (fun l => Js.JsArr
            (map (fun r : Z * Q =>
                    Js.JsObj [ ("date", Js.JsNum (inject_Z (fst r)));
                               ("adherence_rate", Js.JsNum (snd r)) ]%string)
               l))
         (json_calendar_data s)) ]%string.

Definition rpc_get_adherence_summary (clock : Instant) (db : Db)
    (args : Payload) : RpcResult Js.Json :=
  if same_names (map fst args) ["p_user_id"%string] then
    match get args "p_user_id" with
    | Some (JString u) =>
        match get_adherence_summary clock db u with
        | Ok summary => RpcOk (summary_json summary)
        | Err e => RpcErr (Raised e)
        end
    | _ => RpcErr InvalidInput
    end
  else RpcErr NoSuchFunction.

End Store.

(** ** The schedule both pages compute *)

(** [const hour = 8 + (i * (16 / frequency))]. *)
Definition doseHour (frequency i : Z) : float :=
  PrimFloat.add (JsNumber.of_Z 8)
    (PrimFloat.mul (JsNumber.of_Z i)
       (PrimFloat.div (JsNumber.of_Z 16) (JsNumber.of_Z frequency))).

(** [scheduledTime.setHours(Math.floor(hour), (hour % 1) * 60, 0, 0)]:
    the minutes argument is converted with [ToIntegerOrInfinity]. *)
Definition doseTime (day : Instant) (frequency i : Z) : Instant :=
  let hour := doseHour frequency i in
  setHours day (JsNumber.trunc hour)
    (JsNumber.trunc (PrimFloat.mul (JsNumber.mod1 hour) (JsNumber.of_Z 60))).

(** The indices of [for (let i = 0; i < frequency; i++)]. *)
Definition doseIndices (frequency : Z) : list Z :=
  map Z.of_nat (seq 0 (Z.to_nat frequency)).

(** A log is for the dose of medication [id] scheduled at [scheduledTime]:
    [log.medication_id === id && log.scheduled_time.slice(0, 16) ===
       scheduledTime.toISOString().slice(0, 16)]. *)
Definition logMatches (id : string) (scheduledTime : Instant)
    (log : DoseLog) : bool :=
  String.eqb (medication_id log) id
  && (isoMinute (scheduled_time log) =? isoMinute scheduledTime).

(** The predicate of [logs.find(log => ...)] in both pages. *)
Definition matchesDose (m : Medication) (scheduledTime : Instant)
    (log : DoseLog) : bool :=
  logMatches (med_id m) scheduledTime log.

Definition findDoseLog (logs : list DoseLog) (m : Medication)
    (scheduledTime : Instant) : option DoseLog :=
  find (matchesDose m scheduledTime) logs.

(** ** The dose-logging page *)

Module DoseLogging.

Inductive Status : Type := pending | taken | late | missed.

Record ScheduledDose : Type := mkScheduledDose {
  medication : Medication;
  doseNumber : Z;
  scheduledTime : Instant;
  status : Status
}.

(** The [if (doseLog) ... else if ... else ...] chain. *)
Definition statusOf (logs : list DoseLog) (now : Instant) (m : Medication)
    (scheduledTime : Instant) : Status :=
  match findDoseLog logs m scheduledTime with
  | Some _ => taken
  | None =>
      if addHours scheduledTime 4 <? now then missed
      else if scheduledTime <? now then late
      else pending
  end.

(** The body of the inner loop: the dose pushed for index [i]. *)
Definition doseFor (logs : list DoseLog) (today now : Instant)
    (m : Medication) (i : Z) : ScheduledDose :=
  let scheduledTime := doseTime today (frequency_per_day m) i in
  mkScheduledDose m (i + 1) scheduledTime (statusOf logs now m scheduledTime).

Definition generateScheduledDoses (tz : Z) (now : Instant)
    (medications : list Medication) (todaysLogs : list DoseLog)
    : list ScheduledDose :=
  let today := startOfDay tz now in
  sort_by scheduledTime
    (flat_map
       (fun m => map (doseFor todaysLogs today now m)
                   (doseIndices (frequency_per_day m)))
       medications).

(** [getStatusBadge]: the label shown for a status. *)
Inductive Badge : Type := BadgeTaken | BadgeDueNow | BadgeMissed | BadgeUpcoming.

Definition getStatusBadge (s : Status) : Badge :=
  match s with
  | taken => BadgeTaken
  | late => BadgeDueNow
  | missed => BadgeMissed
  | pending => BadgeUpcoming
  end.

(** The key of the optimistic flags,
    [`${dose.medication.id}-${dose.doseNumber}-${dose.scheduledTime.toISOString()}`]. *)
Definition DoseKey : Type := string * Z * Instant.

Definition doseKey (dose : ScheduledDose) : DoseKey :=
  (med_id (medication dose), doseNumber dose, scheduledTime dose).

Definition doseKey_eqb (a b : DoseKey) : bool :=
  let '(ia, na, ta) := a in
  let '(ib, nb, tb) := b in
  String.eqb ia ib && (na =? nb) && (ta =? tb).

Inductive Toast : Type :=
| ToastDoseMissed
| ToastError (e : Store.Error).

(** The row [handleMarkAsMissed] sends to [dose_logs]. *)
Definition missedPayload (user_id : string) (now : Instant)
    (dose : ScheduledDose) : Store.Payload :=
  [ ("medication_id", Store.JString (med_id (medication dose)));
    ("scheduled_time", Store.JInstant (scheduledTime dose));
    ("timestamp_taken", Store.JInstant now);
    ("taken_on_time", Store.JBool false);
    ("reward_earned", Store.JBool false);
    ("missed", Store.JBool true);
    ("user_id", Store.JString user_id) ]%string.

(** [handleMarkAsMissed(dose)] for the signed-in [user_id]: the toast shown,
    the flags [justMissed] and the tables afterwards. *)
Definition handleMarkAsMissed (user_id : string) (now clock : Instant)
    (justMissed : list DoseKey) (db : Store.Db) (dose : ScheduledDose)
    : Toast * list DoseKey * Store.Db :=
  let justMissed' := doseKey dose :: justMissed in
  match Store.from_dose_logs_insert (Some user_id) clock db
          (missedPayload user_id now dose) with
  | (Store.Ok _, db') => (ToastDoseMissed, justMissed', db')
  | (Store.Err e, db') => (ToastError e, justMissed', db')
  end.

(** The badge of a card: [isJustTaken ? getStatusBadge('taken')
    : isJustMissed ? getStatusBadge('missed') : getStatusBadge(dose.status)]. *)
Definition cardBadge (justTaken justMissed : list DoseKey)
    (dose : ScheduledDose) : Badge :=
  if existsb (doseKey_eqb (doseKey dose)) justTaken then getStatusBadge taken
  else if existsb (doseKey_eqb (doseKey dose)) justMissed
       then getStatusBadge missed
       else getStatusBadge (status dose).

(** *** The rest of the page *)

(** The filter of [fetchMedications]:
    [.lte('start_date', today).or(`end_date.is.null,end_date.gte.${today}`)]. *)
Definition activeToday (now : Instant) (m : Medication) : bool :=
  (start_date m <=? isoDate now)
  && match end_date m with
     | None => true
     | Some e => isoDate now <=? e
     end.

(** [fetchMedications]: the medications the table returns to the caller
    that pass the filter, ordered by name under the collation [name_leb] of
    the database.  The query names no user. *)
Definition fetchMedications (name_leb : string -> string -> bool)
    (auth_uid : option string) (db : Store.Db) (now : Instant)
    : list Medication :=
  sort_leb (fun a b => name_leb (med_name a) (med_name b))
    (filter (activeToday now) (Store.from_medications_select auth_uid db)).

(** [fetchTodaysLogs]: the logs the table returns to the caller whose
    [timestamp_taken] lies in the local day of [now].  The query names no
    user. *)
Definition fetchTodaysLogs (tz : Z) (auth_uid : option string) (db : Store.Db)
    (now : Instant) : list DoseLog :=
  filter
    (fun l => (startOfDay tz now <=? timestamp_taken l)
              && (timestamp_taken l <=? endOfDay tz now))
    (Store.from_dose_logs_select auth_uid db).

Inductive LogToast : Type :=
| ToastMedicationTaken
| ToastCouldNotLog (e : Store.RpcError).

(** The arguments [handleLogDose] passes to [rpc('log_dose', ...)]. *)
Definition takenArgs (user_id : string) (now : Instant) (dose : ScheduledDose)
    : Store.Payload :=
  [ ("medication_id", Store.JString (med_id (medication dose)));
    ("scheduled_time", Store.JInstant (scheduledTime dose));
    ("actual_time", Store.JInstant now);
    ("user_id", Store.JString user_id) ]%string.

(** [handleLogDose(dose)]: the toast, the flags [justTaken] and the tables
    afterwards. *)
Definition handleLogDose (user_id : string) (now clock : Instant)
    (justTaken : list DoseKey) (db : Store.Db) (dose : ScheduledDose)
    : LogToast * list DoseKey * Store.Db :=
  let justTaken' := doseKey dose :: justTaken in
  match Store.rpc_log_dose (Some user_id) clock db (takenArgs user_id now dose) with
  | (Store.RpcOk _, db') => (ToastMedicationTaken, justTaken', db')
  | (Store.RpcErr e, db') => (ToastCouldNotLog e, justTaken', db')
  end.

(** [isLate(scheduledTime)]. *)
Definition isLate (now scheduledTime : Instant) : bool :=
  (scheduledTime <? now) && (now <? addHours scheduledTime 4).

Definition isTaken (s : Status) : bool :=
  match s with taken => true | _ => false end.

Definition isMissed (s : Status) : bool :=
  match s with missed => true | _ => false end.

(** The two buttons of a card are rendered when
    [dose.status !== 'taken' && dose.status !== 'missed' && !isJustTaken
     && !isJustMissed]. *)
Definition offersButtons (justTaken justMissed : list DoseKey)
    (dose : ScheduledDose) : bool :=
  negb (isTaken (status dose)) && negb (isMissed (status dose))
  && negb (existsb (doseKey_eqb (doseKey dose)) justTaken)
  && negb (existsb (doseKey_eqb (doseKey dose)) justMissed).

(** The line under a taken dose: "Medication Taken (Late)" or
    "Medication Taken (On time)". *)
Inductive TakenLabel : Type := LabelLate | LabelOnTime.

Definition takenLabel (now : Instant) (justTaken : list DoseKey)
    (dose : ScheduledDose) : option TakenLabel :=
  if isTaken (status dose) || existsb (doseKey_eqb (doseKey dose)) justTaken
  then Some (if isLate now (scheduledTime dose) then LabelLate else LabelOnTime)
  else None.

(** The line "Medication Missed" is rendered when
    [dose.status === 'missed' || isJustMissed]. *)
Definition showsMissedLine (justMissed : list DoseKey) (dose : ScheduledDose)
    : bool :=
  isMissed (status dose) || existsb (doseKey_eqb (doseKey dose)) justMissed.

End DoseLogging.

(** ** The reminders page *)

Module Reminders.

Record ScheduledDose : Type := mkScheduledDose {
  medication : Medication;
  doseNumber : Z;
  scheduledTime : Instant;
  isToday : bool;
  isTomorrow : bool;
  isUpcoming : bool;
  isDue : bool
}.

(** [new Date(medication.start_date)] parses a date-only string as UTC
    midnight; [setHours(0, 0, 0, 0)] then moves it to a local midnight. *)
Definition startDate (tz : Z) (m : Medication) : Instant :=
  startOfDay tz (start_date m * msPerDay).

(** [medication.end_date ? new Date(medication.end_date)
      : addDays(new Date(), 365)], then [setHours(23, 59, 59, 999)]. *)
Definition endDate (tz : Z) (now : Instant) (m : Medication) : Instant :=
  endOfDay tz
    (match end_date m with
     | Some d => d * msPerDay
     | None => addDays now 365
     end).

(** [currentDate >= startDate && currentDate <= endDate]. *)
Definition activeOn (tz : Z) (now : Instant) (m : Medication)
    (currentDate : Instant) : bool :=
  (startDate tz m <=? currentDate) && (currentDate <=? endDate tz now m).

(** The body of the inner loop: the dose pushed for index [i], if any. *)
Definition doseFor (tz : Z) (logs : list DoseLog) (currentDate now : Instant)
    (m : Medication) (i : Z) : list ScheduledDose :=
  let scheduledTime := doseTime currentDate (frequency_per_day m) i in
  match findDoseLog logs m scheduledTime with
  | Some _ => []
  | None =>
      if (now <? scheduledTime)
         || isWithinInterval now scheduledTime (addHours scheduledTime 4)
      then
        [ mkScheduledDose m (i + 1) scheduledTime
            (DateFns.isToday tz now scheduledTime)
            (DateFns.isTomorrow tz now scheduledTime)
            (negb (DateFns.isToday tz now scheduledTime)
             && negb (DateFns.isTomorrow tz now scheduledTime)
             && isFuture now scheduledTime)
            (isWithinInterval now scheduledTime (addHours scheduledTime 4)) ]
      else []
  end.

(** The doses of one day of the seven-day loop. *)
Definition dosesOfDay (tz : Z) (logs : list DoseLog) (now : Instant)
    (medications : list Medication) (dayOffset : Z) : list ScheduledDose :=
  let currentDate := startOfDay tz (addDays now dayOffset) in
  flat_map
    (fun m =>
       if activeOn tz now m currentDate
       then flat_map (doseFor tz logs currentDate now m)
              (doseIndices (frequency_per_day m))
       else [])
    medications.

Definition generateScheduledDoses (tz : Z) (now : Instant)
    (medications : list Medication) (doseLogs : list DoseLog)
    : list ScheduledDose :=
  sort_by scheduledTime
    (flat_map (dosesOfDay tz doseLogs now medications) (doseIndices 7)).

Definition dueDoses (doses : list ScheduledDose) : list ScheduledDose :=
  filter isDue doses.

(** *** The rest of the page *)

(** The filter of [fetchMedications]:
    [.lte('start_date', <date of now + 7 days>)
     .or(`end_date.is.null,end_date.gte.${today}`)]. *)
Definition fetchable (now : Instant) (m : Medication) : bool :=
  (start_date m <=? isoDate (addDays now 7))
  && match end_date m with
     | None => true
     | Some e => isoDate now <=? e
     end.

Definition fetchMedications (name_leb : string -> string -> bool)
    (auth_uid : option string) (db : Store.Db) (now : Instant)
    : list Medication :=
  sort_leb (fun a b => name_leb (med_name a) (med_name b))
    (filter (fetchable now) (Store.from_medications_select auth_uid db)).

(** [fetchDoseLogs]: the logs the table returns to the caller that are
    scheduled from the start of today to the end of the seventh day from
    now.  The query names no user. *)
Definition fetchDoseLogs (tz : Z) (auth_uid : option string) (db : Store.Db)
    (now : Instant) : list DoseLog :=
  filter
    (fun l => (startOfDay tz now <=? scheduled_time l)
              && (scheduled_time l <=? endOfDay tz (addDays now 7)))
    (Store.from_dose_logs_select auth_uid db).

(** The lists behind the three tabs. *)
Definition todaysDoses (doses : list ScheduledDose) : list ScheduledDose :=
  filter isToday doses.
Definition tomorrowsDoses (doses : list ScheduledDose) : list ScheduledDose :=
  filter isTomorrow doses.
Definition upcomingDoses (doses : list ScheduledDose) : list ScheduledDose :=
  filter isUpcoming doses.

(** The arguments [handleMarkAsTaken] passes to [rpc('log_dose', ...)]. *)
Definition takenArgs (now : Instant) (dose : ScheduledDose) : Store.Payload :=
  [ ("medication_id", Store.JString (med_id (medication dose)));
    ("scheduled_time", Store.JInstant (scheduledTime dose));
    ("actual_time", Store.JInstant now) ]%string.

Definition doseKey (dose : ScheduledDose) : DoseLogging.DoseKey :=
  (med_id (medication dose), doseNumber dose, scheduledTime dose).

(** [handleMarkAsTaken(dose)] for the signed-in caller. *)
Definition handleMarkAsTaken (auth_uid : option string) (now clock : Instant)
    (justTaken : list DoseLogging.DoseKey) (db : Store.Db)
    (dose : ScheduledDose)
    : DoseLogging.LogToast * list DoseLogging.DoseKey * Store.Db :=
  let justTaken' := doseKey dose :: justTaken in
  match Store.rpc_log_dose auth_uid clock db (takenArgs now dose) with
  | (Store.RpcOk _, db') => (DoseLogging.ToastMedicationTaken, justTaken', db')
  | (Store.RpcErr e, db') => (DoseLogging.ToastCouldNotLog e, justTaken', db')
  end.

End Reminders.

(** ** The client library (lib/supabase.ts) *)

Module Client.

(** [logDose(medicationId, scheduledTime, actualTime)]. *)
Definition logDose (auth_uid : option string) (clock : Instant)
    (db : Store.Db) (medicationId : string)
    (scheduledTime actualTime : Instant)
    : Store.RpcResult Store.LogDoseJson * Store.Db :=
  Store.rpc_log_dose auth_uid clock db
    [ ("p_medication_id", Store.JString medicationId);
      ("p_scheduled_time", Store.JInstant scheduledTime);
      ("p_actual_time", Store.JInstant actualTime) ]%string.

(** [getAdherenceSummary()]: [None] is the exception 'Not authenticated'
    thrown when no user is signed in. *)
Definition getAdherenceSummary (user : option string) (clock : Instant)
    (db : Store.Db) : option (Store.RpcResult Js.Json) :=
  match user with
  | None => None
  | Some id =>
      Some (Store.rpc_get_adherence_summary clock db
              [ ("p_user_id"%string, Store.JString id) ])
  end.

End Client.

(** ** The dashboard (pages/Dashboard.tsx) *)

Module Dashboard.

(** The state [adherence]; [None] in a field is [undefined]. *)
Record AdherenceView : Type := mkAdherenceView {
  adherence_percentage : option Js.Json;
  missed_medications : option Js.Json;
  day_data : option Js.Json
}.

(** [{ adherence_percentage: 0, missed_medications: [], day_data: [] }]. *)
Definition zeroSummary : AdherenceView :=
  mkAdherenceView (Some (Js.JsNum 0)) (Some (Js.JsArr [])) (Some (Js.JsArr [])).

(** The arguments of [rpc('get_adherence_summary', ...)]; a date is passed
    as the instant of its UTC midnight. *)
Definition summaryArgs (tz : Z) (user_id : string) (now : Instant)
    : Store.Payload :=
  [ ("user_id", Store.JString user_id);
    ("start_date",
     Store.JInstant (isoDate (startOfDay tz (addDays now (-7))) * msPerDay));
    ("end_date", Store.JInstant (isoDate (endOfDay tz now) * msPerDay)) ]%string.

(** What [fetchAdherenceData] stores in [adherence] for a response of the
    call.  A [TypeError] on [data[0].x] is caught and stores the zero
    summary.  [None]: the test [data.length > 0] is outside the model. *)
Definition storeAdherence (resp : Store.RpcResult Js.Json)
    : option AdherenceView :=
  match resp with
  | Store.RpcErr _ => Some zeroSummary
  | Store.RpcOk data =>
      match Js.hasRows data with
      | None => None
      | Some false => Some zeroSummary
      | Some true =>
          match Js.member data "0" with
          | None | Some Js.JsNull => Some zeroSummary
          | Some row =>
              Some (mkAdherenceView (Js.member row "adherence_percentage")
                      (Js.member row "missed_medications")
                      (Js.member row "day_data"))
          end
      end
  end.

Definition fetchAdherenceData (tz : Z) (user_id : string) (now clock : Instant)
    (db : Store.Db) : option AdherenceView :=
  storeAdherence
    (Store.rpc_get_adherence_summary clock db (summaryArgs tz user_id now)).

Inductive Colour : Type := Green | Yellow | Red | Gray.

(** [getAdherenceColor(percentage)]. *)
Definition getAdherenceColor (percentage : Q) : Colour :=
  if Qle_bool 90 percentage then Green
  else if Qle_bool 75 percentage then Yellow
  else Red.

(** [getHeatmapColor(percent)]. *)
Definition getHeatmapColor (percent : option Q) : Colour :=
  match percent with
  | None => Gray
  | Some p =>
      if Qle_bool 90 p then Green
      else if Qle_bool 75 p then Yellow
      else if negb (Qle_bool p 0) then Red
      else Gray
  end.

End Dashboard.

(** ** The reports page (pages/Reports.tsx) *)

Module Reports.

(** [addWeeks(d, n)] and [subWeeks(d, n)] of date-fns. *)
Definition addWeeks (d : Instant) (n : Z) : Instant := addDays d (7 * n).
Definition subWeeks (d : Instant) (n : Z) : Instant := addWeeks d (- n).

(** The state [currentStartDate], [currentEndDate]. *)
Record Range : Type := mkRange {
  currentStartDate : Instant;
  currentEndDate : Instant
}.

Definition handlePreviousWeek (r : Range) : Range :=
  mkRange (subWeeks (currentStartDate r) 1) (subWeeks (currentEndDate r) 1).

Definition handleNextWeek (now : Instant) (r : Range) : Range :=
  let nextEndDate := addWeeks (currentEndDate r) 1 in
  if nextEndDate <=? now
  then mkRange (addWeeks (currentStartDate r) 1) nextEndDate
  else r.

(** The arguments of [rpc('get_adherence_summary', ...)] in [fetchData]. *)
Definition summaryArgs (user_id : string) (r : Range) : Store.Payload :=
  [ ("user_id", Store.JString user_id);
    ("start_date", Store.JInstant (currentStartDate r));
    ("end_date", Store.JInstant (currentEndDate r)) ]%string.

(** [medications.reduce((map, med) => { map[med.id] = med.name; return map },
    {})]: the latest assignment of a key is found first. *)
Definition medicationMap (medications : list Medication)
    : list (string * string) :=
  fold_left (fun map med => (med_id med, med_name med) :: map) medications [].

(** [medicationMap[log.medication_id] || 'Unknown']. *)
Definition medicationName (map : list (string * string)) (id : string)
    : string :=
  match find (fun kv => String.eqb (fst kv) id) map with
  | Some kv => if String.eqb (snd kv) EmptyString then "Unknown" else snd kv
  | None => "Unknown"
  end.

Definition yesNo (b : bool) : string := if b then "Yes" else "No".

Definition doubleQuote : string := String (Ascii.ascii_of_nat 34) EmptyString.

Definition quoted (s : string) : string :=
  (doubleQuote ++ s ++ doubleQuote)%string.

(** The cells of the CSV row of a log; [fmt] is
    [format(parseISO(.), 'yyyy-MM-dd HH:mm:ss')]. *)
Definition csvRow (fmt : Instant -> string) (map : list (string * string))
    (log : DoseLog) : list string :=
  [ quoted (medicationName map (medication_id log));
    quoted (fmt (scheduled_time log));
    quoted (fmt (timestamp_taken log));
    yesNo (taken_on_time log);
    yesNo (match reward_earned log with Some b => b | None => false end) ].

Definition csvHeader : string :=
  "Medication,Scheduled Time,Taken Time,On Time,Reward Earned".

Definition newline : string := String (Ascii.ascii_of_nat 10) EmptyString.

(** [handleExportCSV]: the text of the file, or [None] when the page shows
    'There is no data to export'. *)
Definition handleExportCSV (fmt : Instant -> string)
    (medications : list Medication) (logs : list DoseLog) : option string :=
  match logs, medications with
  | [], _ | _, [] => None
  | _, _ =>
      let map := medicationMap medications in
      Some (fold_left
              (fun csv log =>
                 (csv ++ String.concat "," (csvRow fmt map log) ++ newline)%string)
              logs (csvHeader ++ newline)%string)
  end.

End Reports.

(** * Derived notions *)

(** The number of stored logs for a (medication id, scheduled minute) pair. *)
Definition logsFor (db : Store.Db) (id : string) (s : Instant) : Z :=
  Store.count (logMatches id s) (Store.dose_logs db).

(** The row a successful [log_dose] stores. *)
Definition loggedRow (clock : Instant) (db : Store.Db)
    (p_medication_id : string) (p_scheduled_time p_actual_time : Instant)
    : DoseLog :=
  let on_time := p_actual_time <=? p_scheduled_time + 4 * msPerHour in
  mkDoseLog (Store.next_id db) p_medication_id p_actual_time p_scheduled_time
    on_time (Some on_time) clock.

(** The keys of the groups of a list of joined rows. *)
Definition keys (rows : list (DoseLog * Medication)) : list (Z * string) :=
  nodup Store.key_dec (map Store.group_key rows).


(** The size of the (day, medication name) group of a row. *)
Definition groupSize (rows : list (DoseLog * Medication))
    (r : DoseLog * Medication) : Z :=
  Store.count
    (fun r' => Store.key_eqb (Store.group_key r') (Store.group_key r)) rows.

(** The time of day, as (hour, minute), of each dose of a frequency. *)
Definition doseClock (frequency : Z) : list (Z * Z) :=
  map (fun i =>
         let t := doseTime 0 frequency i in
         (t / msPerHour, (t mod msPerHour) / msPerMinute))
      (doseIndices frequency).

(** The occurrences of today that the reminders page lists, as
    (medication id, dose number, scheduled time). *)
Definition remindersToday (tz : Z) (now : Instant)
    (medications : list Medication) (logs : list DoseLog)
    : list (string * Z * Instant) :=
  map (fun d => (med_id (Reminders.medication d), Reminders.doseNumber d,
                 Reminders.scheduledTime d))
    (filter Reminders.isToday
       (Reminders.generateScheduledDoses tz now medications logs)).



(** The times of day, in milliseconds after midnight, of the doses of a
    frequency. *)
Definition dayOffsets (frequency : Z) : list Z :=
  map (doseTime 0 frequency) (doseIndices frequency).

Fixpoint increasingb (l : list Z) : bool :=
  match l with
  | x :: t =>
      match t with
      | y :: _ => (x <? y) && increasingb t
      | [] => true
      end
  | [] => true
  end.

(** The doses of a frequency start at 08:00, are strictly increasing and
    fall before midnight. *)
Definition withinDay (frequency : Z) : bool :=
  let l := dayOffsets frequency in
  increasingb l
  && forallb (fun t => (8 * msPerHour <=? t) && (t <? msPerDay)) l
  && (hd (8 * msPerHour) l =? 8 * msPerHour).

(** The foreign key of [dose_logs]: every log refers to a stored
    medication. *)
Definition fk_ok (db : Store.Db) : Prop :=
  forall l, In l (Store.dose_logs db) ->
    exists m, In m (Store.medications db) /\ med_id m = medication_id l.

(** A medication with this id is stored. *)
Definition medicationExists (db : Store.Db) (id : string) : Prop :=
  exists m, In m (Store.medications db) /\ med_id m = id.

(** * Sample data *)

(** Local midnight of day 20000 (2024-10-04) at UTC. *)
Definition day0 : Instant := 20000 * msPerDay.

Definition clockAt (day : Instant) (h m sec : Z) : Instant :=
  day + h * msPerHour + m * msPerMinute + sec * 1000.

Definition aspirin : Medication :=
  mkMedication "med-1" "user-1" "Aspirin" "100 mg" 2 20000 None None.

Definition db0 : Store.Db := Store.mkDb [aspirin] [] 0.

(** The row [handleMarkAsMissed] sends for the 08:00 dose, as a stored
    log. *)
Definition missedLog : DoseLog :=
  mkDoseLog 0 "med-1" (clockAt day0 8 30 0) (clockAt day0 8 0 0)
    false (Some false) (clockAt day0 8 30 0).

(** The log of the 08:00 dose of [aspirin], taken at 08:30. *)
Definition takenLog : DoseLog :=
  mkDoseLog 0 "med-1" (clockAt day0 8 30 0) (clockAt day0 8 0 0)
    true (Some true) (clockAt day0 8 30 0).

Definition dbOnTime : Store.Db := Store.mkDb [aspirin] [takenLog] 1.


(** The tables after the owner of [aspirin] has recorded a list of doses,
    each given as (scheduled instant, instant of the recording). *)
Definition recordAll (db : Store.Db) (doses : list (Instant * Instant))
    : Store.Db :=
  fold_left
    (fun db d =>
       snd (Store.log_dose (Some "user-1"%string) (snd d) db "med-1"
              (fst d) (snd d)))
    doses db.

Definition day1 : Instant := day0 + msPerDay.

(** Both doses of one day taken on time, the first dose of the next day
    taken six hours late. *)
Definition dbUneven : Store.Db :=
  recordAll db0
    [ (clockAt day0 8 0 0, clockAt day0 8 5 0);
      (clockAt day0 16 0 0, clockAt day0 16 5 0);
      (clockAt day1 8 0 0, clockAt day1 14 0 0) ].

(** A week of [aspirin], the 08:00 dose recorded each day: six times ten
    minutes late, and on the fourth day six hours late. *)
Definition weekDose (i : Z) (minutesLate : Z) : Instant * Instant :=
  let scheduled := clockAt (day0 + i * msPerDay) 8 0 0 in
  (scheduled, scheduled + minutesLate * msPerMinute).

Definition dbWeek : Store.Db :=
  recordAll db0
    [ weekDose 0 10; weekDose 1 10; weekDose 2 10; weekDose 3 360;
      weekDose 4 10; weekDose 5 10; weekDose 6 10 ].

Definition endOfWeek : Instant := clockAt (day0 + 6 * msPerDay) 15 0 0.

(** A course of two doses a day that ended on day 19999. *)
Definition endedCourse : Medication :=
  mkMedication "med-3" "user-1" "Amoxicillin" "500 mg" 2 19990 (Some 19999) None.

(** A log of [aspirin] scheduled nine days before the end of the week. *)
Definition oldLog : DoseLog :=
  mkDoseLog 7 "med-1" (clockAt (day0 - 3 * msPerDay) 8 5 0)
    (clockAt (day0 - 3 * msPerDay) 8 0 0) true (Some true)
    (clockAt (day0 - 3 * msPerDay) 8 5 0).

(** * Properties *)

(** ** Sorting *)



Section SortByFacts.
Context {A : Type} (key : A -> Z).

Lemma insert_by_perm (x : A) (l : list A) :
  Permutation (insert_by key x l) (x :: l).
Proof.
  induction l as [| y t IH]; simpl; [reflexivity |].
  destruct (key x <=? key y); [reflexivity |].
  rewrite IH. apply perm_swap.
Qed.

Lemma sort_by_perm (l : list A) : Permutation (sort_by key l) l.
Proof.
  induction l as [| x t IH]; simpl; [reflexivity |].
  rewrite insert_by_perm. apply perm_skip. exact IH.
Qed.

Lemma insert_by_sorted (x : A) (l : list A) :
  StronglySorted (key_le key) l ->
  StronglySorted (key_le key) (insert_by key x l).
Proof.
  induction 1 as [| y t Hs IH Hy]; simpl.
  - constructor; constructor.
  - destruct (Z.leb_spec (key x) (key y)) as [Hle | Hgt].
    + constructor; [constructor; assumption |].
      constructor; [exact Hle |].
      eapply Forall_impl; [| exact Hy].
      intros z Hz. unfold key_le in *. lia.
    + constructor; [exact IH |].
      apply (Permutation_Forall (Permutation_sym (insert_by_perm x t))).
      constructor; [unfold key_le; lia | exact Hy].
Qed.

Lemma sort_by_sorted (l : list A) : StronglySorted (key_le key) (sort_by key l).
Proof.
  induction l as [| x t IH]; simpl; [constructor |].
  apply insert_by_sorted. exact IH.
Qed.



End SortByFacts.

(** ** Counting *)

Section Counting.
Import Store.
Context {A : Type}.

Lemma count_cons (p : A -> bool) (x : A) (l : list A) :
  count p (x :: l) = (if p x then 1 else 0) + count p l.
Proof.
  unfold count. cbn [filter]. destruct (p x); cbn [List.length]; lia.
Qed.

Lemma count_nonneg (p : A -> bool) (l : list A) : 0 <= count p l.
Proof. unfold count. lia. Qed.

Lemma count_ext (p q : A -> bool) (l : list A) :
  (forall x, In x l -> p x = q x) -> count p l = count q l.
Proof.
  induction l as [| x t IH]; intros H; [reflexivity |].
  rewrite !count_cons, (H x (or_introl eq_refl)), IH; [reflexivity |].
  intros y Hy. apply H. right; exact Hy.
Qed.

Lemma count_filter (p q : A -> bool) (l : list A) :
  count q (filter p l) = count (fun x => p x && q x) l.
Proof.
  induction l as [| x t IH]; [reflexivity |].
  simpl filter. rewrite count_cons, <- IH.
  destruct (p x); simpl; [rewrite count_cons |]; reflexivity.
Qed.

Lemma count_all (l : list A) : count (fun _ => true) l = Z.of_nat (List.length l).
Proof.
  unfold count. induction l as [| x t IH]; [reflexivity |].
  cbn [filter List.length]. lia.
Qed.

Lemma count_split (p q : A -> bool) (l : list A) :
  count p l = count (fun x => p x && q x) l
              + count (fun x => p x && negb (q x)) l.
Proof.
  induction l as [| x t IH]; [reflexivity |].
  rewrite !count_cons, IH. destruct (p x), (q x); cbn [andb negb]; lia.
Qed.

End Counting.

(** ** Schedule *)

(** C2, at the scenario of the specification: a medication taken twice a day
    is scheduled at 08:00 and 16:00, not at 08:00 and 14:00.  Five times a
    day the last dose falls at 20:48, after the 8 PM that the schedule's own
    comment gives as the end of the window; three times a day the second
    dose falls at 13:19, the fractional minute being truncated, not
    rounded. *)
Theorem twice_daily_schedule :
  map DoseLogging.scheduledTime
    (DoseLogging.generateScheduledDoses 0 (clockAt day0 7 0 0) [aspirin] [])
  = [clockAt day0 8 0 0; clockAt day0 16 0 0]
  /\ doseClock 2 = [(8, 0); (16, 0)]
  /\ doseClock 5 = [(8, 0); (11, 11); (14, 24); (17, 36); (20, 48)]
  /\ doseClock 3 = [(8, 0); (13, 19); (18, 39)].
Proof. repeat split; vm_compute; reflexivity. Qed.

(** ** Classification on the dose-logging page *)

Section Classification.
Variables (logs : list DoseLog) (m : Medication) (s now : Instant).

Lemma statusOf_taken_iff :
  DoseLogging.statusOf logs now m s = DoseLogging.taken
  <-> exists log, In log logs /\ matchesDose m s log = true.
Proof.
  unfold DoseLogging.statusOf, findDoseLog.
  destruct (find (matchesDose m s) logs) as [l |] eqn:E.
  - split; [intros _ | reflexivity].
    apply find_some in E. exists l. exact E.
  - split.
    + destruct (addHours s 4 <? now); [discriminate |].
      destruct (s <? now); discriminate.
    + intros [l [Hin Hm]].
      rewrite (find_none _ _ E l Hin) in Hm. discriminate.
Qed.

Lemma statusOf_unlogged :
  findDoseLog logs m s = None ->
  DoseLogging.statusOf logs now m s =
    if addHours s 4 <? now then DoseLogging.missed
    else if s <? now then DoseLogging.late
    else DoseLogging.pending.
Proof. intros E. unfold DoseLogging.statusOf. rewrite E. reflexivity. Qed.

Lemma statusOf_missed_iff :
  DoseLogging.statusOf logs now m s = DoseLogging.missed
  <-> findDoseLog logs m s = None /\ s + 4 * msPerHour < now.
Proof.
  unfold DoseLogging.statusOf, addHours.
  destruct (findDoseLog logs m s).
  - split; [discriminate | intros [E _]; discriminate].
  - destruct (Z.ltb_spec (s + 4 * msPerHour) now).
    + tauto.
    + destruct (s <? now); split; try discriminate; intros [_ H']; lia.
Qed.

Lemma statusOf_late_iff :
  DoseLogging.statusOf logs now m s = DoseLogging.late
  <-> findDoseLog logs m s = None /\ s < now <= s + 4 * msPerHour.
Proof.
  unfold DoseLogging.statusOf, addHours.
  destruct (findDoseLog logs m s).
  - split; [discriminate | intros [E _]; discriminate].
  - destruct (Z.ltb_spec (s + 4 * msPerHour) now).
    + split; [discriminate | intros [_ H']; lia].
    + destruct (Z.ltb_spec s now); split; try discriminate;
        try (intros [_ H']; lia); intros _; split; [reflexivity | lia].
Qed.

Lemma statusOf_pending_iff :
  DoseLogging.statusOf logs now m s = DoseLogging.pending
  <-> findDoseLog logs m s = None /\ now <= s.
Proof.
  unfold DoseLogging.statusOf, addHours, msPerHour.
  destruct (findDoseLog logs m s).
  - split; [discriminate | intros [E _]; discriminate].
  - destruct (Z.ltb_spec (s + 4 * 3600000) now).
    + split; [discriminate | intros [_ H']; lia].
    + destruct (Z.ltb_spec s now); split; try discriminate;
        try (intros [_ H']; lia); intros _; split; [reflexivity | lia].
Qed.

End Classification.

(** The two boundary cases of the specification: an unlogged dose
    scheduled 4h00m01s ago is missed, one scheduled 3h59m59s ago is late. *)
Example boundary_missed (m : Medication) (now : Instant) :
  DoseLogging.statusOf [] now m (now - (4 * msPerHour + 1000))
  = DoseLogging.missed.
Proof.
  apply statusOf_missed_iff. split; [reflexivity | unfold msPerHour; lia].
Qed.

Example boundary_late (m : Medication) (now : Instant) :
  DoseLogging.statusOf [] now m (now - (4 * msPerHour - 1000))
  = DoseLogging.late.
Proof.
  apply statusOf_late_iff. split; [reflexivity | unfold msPerHour; lia].
Qed.

(** C3: at the scheduled instant itself ([now = scheduledInstant]) an
    unlogged dose is still pending on the dose-logging page; it becomes
    late only once [now] is strictly after the scheduled instant. *)
Theorem statusOf_at_scheduled_instant (logs : list DoseLog) (m : Medication)
    (s : Instant) :
  findDoseLog logs m s = None ->
  DoseLogging.statusOf logs s m s = DoseLogging.pending.
Proof.
  intros E. apply statusOf_pending_iff. split; [exact E | lia].
Qed.

Lemma statusOf_at_scheduled_instant_witness :
  findDoseLog [] aspirin (clockAt day0 8 0 0) = None
  /\ DoseLogging.statusOf [] (clockAt day0 8 0 0) aspirin (clockAt day0 8 0 0)
     = DoseLogging.pending.
Proof.
  split; [reflexivity |].
  apply (statusOf_at_scheduled_instant [] aspirin (clockAt day0 8 0 0)).
  reflexivity.
Defined.

(** C9, as stated, fails for the display.  At 09:00 the caller presses
    "Mark as Missed" on the unlogged 08:00 dose: the flag [justMissed] is
    set (the insert of the page is refused).  The dose is then recorded as
    missed by a row of columns of the table alone, with
    [taken_on_time = false].  When the page next fetches its logs, the dose
    has a matching log and is classified as taken, and its card shows the
    badge and the line of a missed dose. *)
Lemma logged_dose_shown_missed_counterexample :
  let now := clockAt day0 9 0 0 in
  let later := clockAt day0 9 30 0 in
  let before := DoseLogging.doseFor [] day0 now aspirin 0 in
  let pressed :=
    DoseLogging.handleMarkAsMissed "user-1" now now [] db0 before in
  let justMissed := snd (fst pressed) in
  let db :=
    snd (Store.from_dose_logs_insert (Some "user-1"%string) later (snd pressed)
           [ ("medication_id", Store.JString "med-1");
             ("scheduled_time", Store.JInstant (clockAt day0 8 0 0));
             ("timestamp_taken", Store.JInstant later);
             ("taken_on_time", Store.JBool false);
             ("reward_earned", Store.JBool false) ]%string) in
  let logs := DoseLogging.fetchTodaysLogs 0 (Some "user-1"%string) db later in
  let d := DoseLogging.doseFor logs day0 later aspirin 0 in
  DoseLogging.offersButtons [] [] before = true
  /\ snd pressed = db0
  /\ map (matchesDose aspirin (DoseLogging.scheduledTime d)) logs = [true]
  /\ map taken_on_time logs = [false]
  /\ DoseLogging.status d = DoseLogging.taken
  /\ DoseLogging.cardBadge [] justMissed d = DoseLogging.BadgeMissed
  /\ DoseLogging.showsMissedLine justMissed d = true.
Proof. vm_compute. repeat split; reflexivity. Qed.

(** C9, amended: an occurrence with a matching log (same medication id, same
    scheduled minute) is classified as taken, whatever the log records (a
    log written by mark-as-missed has [taken_on_time = false]) and whatever
    the time; its status is never missed.  Its card shows the badge of a
    taken dose unless the flag [justMissed] of the session is set for the
    dose and the flag [justTaken] is not: then the card shows the badge of
    a missed dose.  The line "Medication Taken" is always shown, the line
    "Medication Missed" exactly when [justMissed] is set, and the two
    buttons are never offered. *)
Theorem logged_dose_is_taken (logs : list DoseLog) (today now : Instant)
    (m : Medication) (i : Z) (log : DoseLog)
    (justTaken justMissed : list DoseLogging.DoseKey) :
  let d := DoseLogging.doseFor logs today now m i in
  let flagged := existsb (DoseLogging.doseKey_eqb (DoseLogging.doseKey d)) in
  In log logs ->
  matchesDose m (DoseLogging.scheduledTime d) log = true ->
  DoseLogging.status d = DoseLogging.taken
  /\ DoseLogging.status d <> DoseLogging.missed
  /\ DoseLogging.getStatusBadge (DoseLogging.status d) = DoseLogging.BadgeTaken
  /\ DoseLogging.cardBadge justTaken [] d = DoseLogging.BadgeTaken
  /\ DoseLogging.cardBadge justTaken justMissed d
     = (if negb (flagged justTaken) && flagged justMissed
        then DoseLogging.BadgeMissed else DoseLogging.BadgeTaken)
  /\ (DoseLogging.cardBadge justTaken justMissed d = DoseLogging.BadgeMissed
      <-> flagged justTaken = false /\ flagged justMissed = true)
  /\ DoseLogging.takenLabel now justTaken d <> None
  /\ DoseLogging.showsMissedLine justMissed d = flagged justMissed
  /\ DoseLogging.offersButtons justTaken justMissed d = false.
Proof.
  intros d flagged Hin Hm.
  assert (E : DoseLogging.status d = DoseLogging.taken).
  { apply statusOf_taken_iff. exists log. split; assumption. }
  unfold DoseLogging.cardBadge, DoseLogging.takenLabel,
    DoseLogging.showsMissedLine, DoseLogging.offersButtons.
  fold (flagged justTaken). fold (flagged justMissed). rewrite E.
  cbn [DoseLogging.getStatusBadge DoseLogging.isTaken DoseLogging.isMissed
       orb andb negb existsb].
  split; [reflexivity |]. split; [discriminate |]. split; [reflexivity |].
  split; [destruct (flagged justTaken); reflexivity |].
  split; [destruct (flagged justTaken), (flagged justMissed); reflexivity |].
  split.
  { destruct (flagged justTaken), (flagged justMissed);
      (split; [intros H; try discriminate H; split; reflexivity
              | intros [H1 H2]; try discriminate H1; try discriminate H2;
                reflexivity]). }
  split; [discriminate |]. split; reflexivity.
Qed.

Lemma logged_dose_is_taken_witness :
  let now := clockAt day0 23 0 0 in
  let d := DoseLogging.doseFor [missedLog] day0 now aspirin 0 in
  let flags := [DoseLogging.doseKey d] in
  In missedLog [missedLog]
  /\ matchesDose aspirin (DoseLogging.scheduledTime d) missedLog = true
  /\ taken_on_time missedLog = false
  /\ DoseLogging.status d = DoseLogging.taken
  /\ DoseLogging.cardBadge [] [] d = DoseLogging.BadgeTaken
  /\ DoseLogging.cardBadge [] flags d = DoseLogging.BadgeMissed
  /\ DoseLogging.cardBadge flags flags d = DoseLogging.BadgeTaken.
Proof.
  intros now d flags.
  assert (Hin : In missedLog [missedLog]) by (left; reflexivity).
  assert (Hm : matchesDose aspirin (DoseLogging.scheduledTime d) missedLog
               = true) by (vm_compute; reflexivity).
  split; [exact Hin |]. split; [exact Hm |]. split; [reflexivity |].
  destruct (logged_dose_is_taken [missedLog] day0 now aspirin 0 missedLog
              [] flags Hin Hm) as (E & _ & _ & B0 & B1 & _).
  destruct (logged_dose_is_taken [missedLog] day0 now aspirin 0 missedLog
              flags flags Hin Hm) as (_ & _ & _ & _ & B2 & _).
  split; [exact E |]. split; [exact B0 |].
  split; (etransitivity; [first [exact B1 | exact B2] |]);
    vm_compute; reflexivity.
Defined.

(** Within the session that pressed "Mark as Missed" the optimistic flag
    [justMissed] overrides the badge of the card, whatever the status. *)
Lemma cardBadge_just_missed (justMissed : list DoseLogging.DoseKey)
    (d : DoseLogging.ScheduledDose) :
  existsb (DoseLogging.doseKey_eqb (DoseLogging.doseKey d)) justMissed = true ->
  DoseLogging.cardBadge [] justMissed d = DoseLogging.BadgeMissed.
Proof. intros H. unfold DoseLogging.cardBadge. simpl. rewrite H. reflexivity. Qed.

(** ** Recording a dose *)

Section LogDose.
Import Store.
Variables (clock : Instant) (db : Db) (p_medication_id : string).
Variables (p_scheduled_time p_actual_time : Instant).

Lemma select_user_id_some (owner : string) :
  select_user_id db p_medication_id = Some owner ->
  existsb (fun x => String.eqb (med_id x) p_medication_id) (medications db)
  = true.
Proof.
  unfold select_user_id.
  destruct (find _ (medications db)) as [x |] eqn:E; [| discriminate].
  intros _. apply find_some in E. apply existsb_exists. exists x. exact E.
Qed.

Lemma select_user_id_none :
  (forall x, In x (medications db) -> med_id x <> p_medication_id) ->
  select_user_id db p_medication_id = None
  /\ existsb (fun x => String.eqb (med_id x) p_medication_id) (medications db)
     = false.
Proof.
  unfold select_user_id. intros H.
  induction (medications db) as [| x l IH]; [split; reflexivity |].
  simpl. assert (Hx : String.eqb (med_id x) p_medication_id = false).
  { apply String.eqb_neq. apply H. left; reflexivity. }
  rewrite Hx. simpl. apply IH. intros y Hy. apply H. right; exact Hy.
Qed.

Let row : DoseLog :=
  loggedRow clock db p_medication_id p_scheduled_time p_actual_time.

Lemma log_dose_owner (owner : string) :
  select_user_id db p_medication_id = Some owner ->
  log_dose (Some owner) clock db p_medication_id p_scheduled_time p_actual_time
  = (Ok (mkLogDoseJson true (taken_on_time row) (taken_on_time row)),
     mkDb (medications db) (dose_logs db ++ [row]) (S (next_id db))).
Proof.
  intros H. unfold log_dose, insert_dose_log.
  rewrite H, (select_user_id_some owner H). simpl.
  rewrite String.eqb_refl. reflexivity.
Qed.

(** Whenever [log_dose] succeeds, it has stored exactly that row. *)
Lemma log_dose_ok_inv (auth_uid : option string) (json : LogDoseJson)
    (db' : Db) :
  log_dose auth_uid clock db p_medication_id p_scheduled_time p_actual_time
  = (Ok json, db') ->
  dose_logs db' = dose_logs db ++ [row]
  /\ json = mkLogDoseJson true (taken_on_time row)
              (taken_on_time row).
Proof.
  unfold log_dose, insert_dose_log.
  destruct (sql_if _); [discriminate |].
  destruct (existsb _ _); [| discriminate].
  intros E. inversion E. split; reflexivity.
Qed.

End LogDose.

Lemma logMatches_refl (row : DoseLog) :
  logMatches (medication_id row) (scheduled_time row) row = true.
Proof.
  unfold logMatches. rewrite String.eqb_refl, Z.eqb_refl. reflexivity.
Qed.

Lemma count_snoc {A : Type} (p : A -> bool) (l : list A) (x : A) :
  Store.count p (l ++ [x]) = Store.count p l + (if p x then 1 else 0).
Proof.
  unfold Store.count. rewrite filter_app, length_app. simpl.
  destruct (p x); simpl; lia.
Qed.

(** C6: a dose of one's own medication recorded as taken at
    [p_actual_time] is stored as one new row whose [taken_on_time] is
    [p_actual_time <= p_scheduled_time + 4 hours] and whose [reward_earned]
    equals [taken_on_time]. *)
Theorem log_dose_taken_on_time (owner : string) (clock : Instant)
    (db : Store.Db) (id : string) (scheduled actual : Instant) :
  Store.select_user_id db id = Some owner ->
  exists (row : DoseLog) (db' : Store.Db),
    Store.log_dose (Some owner) clock db id scheduled actual
    = (Store.Ok (Store.mkLogDoseJson true (taken_on_time row)
                   (taken_on_time row)), db')
    /\ Store.dose_logs db' = Store.dose_logs db ++ [row]
    /\ medication_id row = id
    /\ scheduled_time row = scheduled
    /\ timestamp_taken row = actual
    /\ taken_on_time row = (actual <=? addHours scheduled 4)
    /\ reward_earned row = Some (taken_on_time row).
Proof.
  intros H. eexists. eexists. split.
  - apply (log_dose_owner clock db id scheduled actual owner H).
  - repeat split.
Qed.

Lemma log_dose_taken_on_time_witness :
  Store.select_user_id db0 "med-1" = Some "user-1"%string
  /\ exists (row : DoseLog) (db' : Store.Db),
       Store.log_dose (Some "user-1"%string) (clockAt day0 9 30 0) db0 "med-1"
         (clockAt day0 8 0 0) (clockAt day0 9 30 0)
       = (Store.Ok (Store.mkLogDoseJson true (taken_on_time row)
                      (taken_on_time row)), db')
       /\ Store.dose_logs db' = Store.dose_logs db0 ++ [row]
       /\ medication_id row = "med-1"%string
       /\ scheduled_time row = clockAt day0 8 0 0
       /\ timestamp_taken row = clockAt day0 9 30 0
       /\ taken_on_time row
          = (clockAt day0 9 30 0 <=? addHours (clockAt day0 8 0 0) 4)
       /\ reward_earned row = Some (taken_on_time row).
Proof.
  split; [reflexivity |].
  apply (log_dose_taken_on_time "user-1" (clockAt day0 9 30 0) db0 "med-1"
           (clockAt day0 8 0 0) (clockAt day0 9 30 0)).
  reflexivity.
Defined.

(** The scenario of the specification: the 08:00 dose taken at 09:30 is on
    time and rewarded, taken at 13:00 it is neither. *)
Example taken_at_0930 :
  Store.log_dose (Some "user-1"%string) (clockAt day0 9 30 0) db0 "med-1"
    (clockAt day0 8 0 0) (clockAt day0 9 30 0)
  = (Store.Ok (Store.mkLogDoseJson true true true),
     Store.mkDb [aspirin]
       [mkDoseLog 0 "med-1" (clockAt day0 9 30 0) (clockAt day0 8 0 0)
          true (Some true) (clockAt day0 9 30 0)] 1).
Proof. vm_compute. reflexivity. Qed.

Example taken_at_1300 :
  Store.log_dose (Some "user-1"%string) (clockAt day0 13 0 0) db0 "med-1"
    (clockAt day0 8 0 0) (clockAt day0 13 0 0)
  = (Store.Ok (Store.mkLogDoseJson true false false),
     Store.mkDb [aspirin]
       [mkDoseLog 0 "med-1" (clockAt day0 13 0 0) (clockAt day0 8 0 0)
          false (Some false) (clockAt day0 13 0 0)] 1).
Proof. vm_compute. reflexivity. Qed.

(** C10: for a medication id that matches no row of [medications],
    [log_dose] does not raise 'Not authorized', whoever calls it: it goes on
    to the insert, and what it returns is the outcome of that insert (which
    the foreign key of [dose_logs] rejects). *)
Theorem log_dose_unknown_medication (auth_uid : option string)
    (clock : Instant) (db : Store.Db) (id : string)
    (scheduled actual : Instant) :
  (forall x, In x (Store.medications db) -> med_id x <> id) ->
  let on_time := actual <=? scheduled + 4 * msPerHour in
  Store.sql_if (Store.sql_neq (Store.select_user_id db id) auth_uid) = false
  /\ fst (Store.log_dose auth_uid clock db id scheduled actual)
     <> Store.Err Store.NotAuthorized
  /\ Store.insert_dose_log clock db id actual scheduled on_time (Some on_time)
     = (Store.Err Store.ForeignKeyViolation, db)
  /\ Store.log_dose auth_uid clock db id scheduled actual
     = (Store.Err Store.ForeignKeyViolation, db).
Proof.
  intros H on_time.
  destruct (select_user_id_none db id H) as [Hsel Hex].
  unfold Store.log_dose, Store.insert_dose_log.
  rewrite Hsel, Hex. simpl. repeat split. discriminate.
Qed.

Lemma log_dose_unknown_medication_witness :
  (forall x, In x (Store.medications db0) -> med_id x <> "med-9"%string)
  /\ Store.log_dose (Some "user-2"%string) (clockAt day0 9 0 0) db0 "med-9"
       (clockAt day0 8 0 0) (clockAt day0 9 0 0)
     = (Store.Err Store.ForeignKeyViolation, db0).
Proof.
  assert (H : forall x, In x (Store.medications db0) ->
                        med_id x <> "med-9"%string).
  { intros x [Hx | []]. subst x. discriminate. }
  split; [exact H |].
  apply (log_dose_unknown_medication (Some "user-2"%string)
           (clockAt day0 9 0 0) db0 "med-9" (clockAt day0 8 0 0)
           (clockAt day0 9 0 0) H).
Defined.

(** C1, as stated, fails: recording the same dose twice stores two rows
    for the pair, and the second call succeeds like the first. *)
Lemma log_dose_twice_counterexample :
  let s := clockAt day0 8 0 0 in
  let r1 := Store.log_dose (Some "user-1"%string) (clockAt day0 8 5 0) db0
              "med-1" s (clockAt day0 8 5 0) in
  let r2 := Store.log_dose (Some "user-1"%string) (clockAt day0 8 6 0) (snd r1)
              "med-1" s (clockAt day0 8 6 0) in
  logsFor (snd r1) "med-1" s = 1
  /\ fst r2 = Store.Ok (Store.mkLogDoseJson true true true)
  /\ fst r2 <> Store.Err Store.UniqueViolation
  /\ logsFor (snd r2) "med-1" s = 2.
Proof. vm_compute. repeat split; discriminate. Qed.

(** C1, amended: [dose_logs] declares no uniqueness over (medication id,
    scheduled instant).  For the owner of a medication every call of
    [log_dose] succeeds, whatever is already stored, and adds one row for
    the pair: two calls for the same pair leave two more rows. *)
Theorem log_dose_twice (owner : string) (clock1 clock2 : Instant)
    (db : Store.Db) (id : string) (scheduled actual1 actual2 : Instant) :
  Store.select_user_id db id = Some owner ->
  exists (j1 j2 : Store.LogDoseJson) (db1 db2 : Store.Db),
    Store.log_dose (Some owner) clock1 db id scheduled actual1 = (Store.Ok j1, db1)
    /\ Store.log_dose (Some owner) clock2 db1 id scheduled actual2
       = (Store.Ok j2, db2)
    /\ logsFor db1 id scheduled = logsFor db id scheduled + 1
    /\ logsFor db2 id scheduled = logsFor db id scheduled + 2.
Proof.
  intros H.
  pose proof (log_dose_owner clock1 db id scheduled actual1 owner H) as E1.
  set (db1 := Store.mkDb (Store.medications db)
                (Store.dose_logs db ++ [loggedRow clock1 db id scheduled actual1])
                (S (Store.next_id db))) in *.
  assert (H1 : Store.select_user_id db1 id = Some owner) by exact H.
  pose proof (log_dose_owner clock2 db1 id scheduled actual2 owner H1) as E2.
  do 4 eexists. split; [exact E1 |]. split; [exact E2 |].
  unfold logsFor. simpl. rewrite !count_snoc.
  pose proof (logMatches_refl (loggedRow clock1 db id scheduled actual1)) as M1.
  pose proof (logMatches_refl (loggedRow clock2 db1 id scheduled actual2)) as M2.
  simpl in M1, M2. rewrite M1, M2. lia.
Qed.

Lemma log_dose_twice_witness :
  Store.select_user_id db0 "med-1" = Some "user-1"%string
  /\ exists (j1 j2 : Store.LogDoseJson) (db1 db2 : Store.Db),
       Store.log_dose (Some "user-1"%string) (clockAt day0 8 5 0) db0 "med-1"
         (clockAt day0 8 0 0) (clockAt day0 8 5 0) = (Store.Ok j1, db1)
       /\ Store.log_dose (Some "user-1"%string) (clockAt day0 8 6 0) db1 "med-1"
            (clockAt day0 8 0 0) (clockAt day0 8 6 0) = (Store.Ok j2, db2)
       /\ logsFor db1 "med-1" (clockAt day0 8 0 0)
          = logsFor db0 "med-1" (clockAt day0 8 0 0) + 1
       /\ logsFor db2 "med-1" (clockAt day0 8 0 0)
          = logsFor db0 "med-1" (clockAt day0 8 0 0) + 2.
Proof.
  split; [reflexivity |].
  apply (log_dose_twice "user-1" (clockAt day0 8 5 0) (clockAt day0 8 6 0) db0
           "med-1" (clockAt day0 8 0 0) (clockAt day0 8 5 0)
           (clockAt day0 8 6 0)).
  reflexivity.
Defined.

(** A direct insert of a well-formed row is not checked against the
    stored logs either: the same row can be inserted twice. *)
Example direct_insert_twice :
  let row := [ ("medication_id", Store.JString "med-1");
               ("scheduled_time", Store.JInstant (clockAt day0 8 0 0));
               ("timestamp_taken", Store.JInstant (clockAt day0 8 5 0));
               ("taken_on_time", Store.JBool true) ]%string in
  let r1 := Store.from_dose_logs_insert (Some "user-1"%string)
              (clockAt day0 8 5 0) db0 row in
  let r2 := Store.from_dose_logs_insert (Some "user-1"%string)
              (clockAt day0 8 5 1) (snd r1) row in
  logsFor (snd r1) "med-1" (clockAt day0 8 0 0) = 1
  /\ logsFor (snd r2) "med-1" (clockAt day0 8 0 0) = 2.
Proof. vm_compute. split; reflexivity. Qed.

(** C8: marking a dose as missed stores nothing.  The row sent to
    [dose_logs] names the columns [missed] and [user_id], which the table
    does not have, so the insert is refused, the tables are left as they
    were and the error is what the page reports. *)
Theorem handleMarkAsMissed_rejected (user_id : string) (now clock : Instant)
    (justMissed : list DoseLogging.DoseKey) (db : Store.Db)
    (dose : DoseLogging.ScheduledDose) :
  Store.from_dose_logs_insert (Some user_id) clock db
    (DoseLogging.missedPayload user_id now dose)
  = (Store.Err (Store.UnknownColumn "missed"), db)
  /\ DoseLogging.handleMarkAsMissed user_id now clock justMissed db dose
     = (DoseLogging.ToastError (Store.UnknownColumn "missed"),
        DoseLogging.doseKey dose :: justMissed, db).
Proof. split; reflexivity. Qed.

(** ** The reminders page against the dose-logging page *)

(** The doses each page generates are those of its inner loop body. *)
Lemma logging_doses_in (tz : Z) (now : Instant) (meds : list Medication)
    (logs : list DoseLog) (d : DoseLogging.ScheduledDose) :
  In d (DoseLogging.generateScheduledDoses tz now meds logs)
  <-> exists m i,
        In m meds /\ In i (doseIndices (frequency_per_day m))
        /\ d = DoseLogging.doseFor logs (startOfDay tz now) now m i.
Proof.
  unfold DoseLogging.generateScheduledDoses. split.
  - intros H. apply (Permutation_in _ (sort_by_perm _ _)) in H.
    apply in_flat_map in H. destruct H as [m [Hm H]].
    apply in_map_iff in H. destruct H as [i [E Hi]].
    exists m, i. repeat split; [exact Hm | exact Hi | symmetry; exact E].
  - intros [m [i [Hm [Hi E]]]].
    apply (Permutation_in _ (Permutation_sym (sort_by_perm _ _))).
    apply in_flat_map. exists m. split; [exact Hm |].
    apply in_map_iff. exists i. split; [symmetry; exact E | exact Hi].
Qed.

Lemma reminders_doses_in (tz : Z) (now : Instant) (meds : list Medication)
    (logs : list DoseLog) (x : Reminders.ScheduledDose) :
  In x (Reminders.generateScheduledDoses tz now meds logs)
  <-> exists dayOffset m i,
        In dayOffset (doseIndices 7) /\ In m meds
        /\ Reminders.activeOn tz now m (startOfDay tz (addDays now dayOffset))
           = true
        /\ In i (doseIndices (frequency_per_day m))
        /\ In x (Reminders.doseFor tz logs
                   (startOfDay tz (addDays now dayOffset)) now m i).
Proof.
  unfold Reminders.generateScheduledDoses, Reminders.dosesOfDay. split.
  - intros H. apply (Permutation_in _ (sort_by_perm _ _)) in H.
    apply in_flat_map in H. destruct H as [o [Ho H]].
    apply in_flat_map in H. destruct H as [m [Hm H]].
    destruct (Reminders.activeOn tz now m _) eqn:Ha; [| destruct H].
    apply in_flat_map in H. destruct H as [i [Hi H]].
    exists o, m, i. repeat split; assumption.
  - intros [o [m [i [Ho [Hm [Ha [Hi H]]]]]]].
    apply (Permutation_in _ (Permutation_sym (sort_by_perm _ _))).
    apply in_flat_map. exists o. split; [exact Ho |].
    apply in_flat_map. exists m. split; [exact Hm |].
    rewrite Ha. apply in_flat_map. exists i. split; assumption.
Qed.

(** Both pages hand out their doses in ascending order of scheduled time. *)
Lemma logging_doses_sorted (tz : Z) (now : Instant) (meds : list Medication)
    (logs : list DoseLog) :
  StronglySorted (key_le DoseLogging.scheduledTime)
    (DoseLogging.generateScheduledDoses tz now meds logs).
Proof. apply sort_by_sorted. Qed.

(** At the scheduled instant itself the reminders page already flags an
    unlogged dose as due: its interval test includes both ends. *)
Lemma reminders_due_at_scheduled_instant (tz : Z) (logs : list DoseLog)
    (day : Instant) (m : Medication) (i : Z) :
  let s := doseTime day (frequency_per_day m) i in
  findDoseLog logs m s = None ->
  map Reminders.isDue (Reminders.doseFor tz logs day s m i) = [true].
Proof.
  intros s E. unfold Reminders.doseFor. fold s. rewrite E.
  unfold isWithinInterval, addHours, msPerHour.
  rewrite Z.ltb_irrefl, Z.leb_refl.
  destruct (Z.leb_spec s (s + 4 * 3600000)); [reflexivity | lia].
Qed.

(** C4, as stated, fails: at 09:00, with the 08:00 dose logged, the
    dose-logging page shows that dose (as taken) and the 16:00 dose (as
    pending), while the reminders page lists the 16:00 dose only. *)
Lemma pages_differ_counterexample :
  let now := clockAt day0 9 0 0 in
  map (fun d => (med_id (DoseLogging.medication d), DoseLogging.doseNumber d,
                 DoseLogging.scheduledTime d, DoseLogging.status d))
    (DoseLogging.generateScheduledDoses 0 now [aspirin] [takenLog])
  = [("med-1"%string, 1, clockAt day0 8 0 0, DoseLogging.taken);
     ("med-1"%string, 2, clockAt day0 16 0 0, DoseLogging.pending)]
  /\ remindersToday 0 now [aspirin] [takenLog]
     = [("med-1"%string, 2, clockAt day0 16 0 0)].
Proof. vm_compute. split; reflexivity. Qed.

(** The loop bodies of the two pages, for one occurrence, the same logs and
    the same instant: the reminders page produces the occurrence exactly
    when the dose-logging page classifies it as pending or late. *)
Lemma doseFor_vs_logging (tz : Z) (logs : list DoseLog)
    (day now : Instant) (m : Medication) (i : Z) :
  let d := DoseLogging.doseFor logs day now m i in
  let r := Reminders.doseFor tz logs day now m i in
  (r = [] <-> DoseLogging.status d = DoseLogging.taken
              \/ DoseLogging.status d = DoseLogging.missed)
  /\ (List.length r <= 1)%nat
  /\ (forall x, In x r ->
        Reminders.medication x = DoseLogging.medication d
        /\ Reminders.doseNumber x = DoseLogging.doseNumber d
        /\ Reminders.scheduledTime x = DoseLogging.scheduledTime d)
  /\ (now <> DoseLogging.scheduledTime d ->
      forall x, In x r ->
        (Reminders.isDue x = true
         <-> DoseLogging.status d = DoseLogging.late)).
Proof.
  unfold DoseLogging.doseFor, Reminders.doseFor, DoseLogging.statusOf.
  cbn zeta. cbn [DoseLogging.status DoseLogging.scheduledTime
                 DoseLogging.medication DoseLogging.doseNumber].
  set (s := doseTime day (frequency_per_day m) i).
  destruct (findDoseLog logs m s) as [l |].
  - split; [split; [left; reflexivity | reflexivity] |].
    split; [simpl; lia |].
    split; [intros x [] | intros _ x []].
  - unfold isWithinInterval, addHours, msPerHour.
    destruct (Z.ltb_spec (s + 4 * 3600000) now);
      destruct (Z.ltb_spec s now); destruct (Z.ltb_spec now s);
      destruct (Z.leb_spec s now);
      destruct (Z.leb_spec now (s + 4 * 3600000)); try lia; simpl;
      (split; [split; [try discriminate; auto
                      | intros [? | ?]; try discriminate; reflexivity] |]);
      (split; [lia |]);
      (split; [intros x Hx; try (destruct Hx as [<- | []]; repeat split);
               try destruct Hx
              | intros Hne x Hx; try (destruct Hx as [<- | []]; simpl;
                                      split; congruence);
                try destruct Hx; try lia]).
Qed.

Lemma in_doseIndices (f i : Z) : In i (doseIndices f) <-> 0 <= i < f.
Proof.
  unfold doseIndices. rewrite in_map_iff. split.
  - intros [n [<- Hn]]. apply in_seq in Hn. lia.
  - intros H. exists (Z.to_nat i). split; [lia |]. apply in_seq. lia.
Qed.

Lemma doseTime_shift (day f i : Z) : doseTime day f i = day + doseTime 0 f i.
Proof.
  unfold doseTime, setHours. cbv zeta. unfold msPerHour, msPerMinute. lia.
Qed.

Lemma reminders_doseFor_inv (tz : Z) (logs : list DoseLog)
    (day now : Instant) (m : Medication) (i : Z) (x : Reminders.ScheduledDose) :
  In x (Reminders.doseFor tz logs day now m i) ->
  let s := doseTime day (frequency_per_day m) i in
  Reminders.medication x = m
  /\ Reminders.doseNumber x = i + 1
  /\ Reminders.scheduledTime x = s
  /\ findDoseLog logs m s = None
  /\ now <= s + 4 * msPerHour
  /\ Reminders.isDue x = (s <=? now)
  /\ Reminders.isToday x = isToday tz now s
  /\ Reminders.isTomorrow x = isTomorrow tz now s
  /\ Reminders.isUpcoming x
     = negb (isToday tz now s) && negb (isTomorrow tz now s) && (now <? s).
Proof.
  intros H s. unfold Reminders.doseFor in H. cbv zeta in H. fold s in H.
  destruct (findDoseLog logs m s); [destruct H |].
  unfold isWithinInterval, addHours, isFuture in H.
  destruct (Z.ltb_spec now s) as [Hlt | Hge];
    destruct (Z.leb_spec s now) as [Hle | Hgt];
    destruct (Z.leb_spec now (s + 4 * msPerHour)) as [Hw | Hw];
    cbn [orb andb In] in H; try lia; try contradiction;
    destruct H as [<- | []]; cbn; repeat split; try lia;
    unfold msPerHour in *; lia.
Qed.

Lemma startOfDay_today (tz : Z) (now : Instant) :
  startOfDay tz (addDays now 0) = startOfDay tz now.
Proof. unfold addDays. rewrite Z.mul_0_l, Z.add_0_r. reflexivity. Qed.

(** C4, amended: for the same medications, the same logs and the same
    instant, take an occurrence of today: a medication [m] of those given
    and a dose index below its frequency.  The dose-logging page displays
    the occurrence.  The reminders page lists it exactly when [m] passes
    that page's date-range check for today ([activeOn]) and the
    dose-logging page classifies the occurrence as pending or late; an
    occurrence classified as taken or missed is not listed.  A listed
    occurrence has the same medication, dose number and scheduled time,
    and, away from the scheduled instant itself, it is flagged due exactly
    when the dose-logging page classifies it as late. *)
Theorem reminders_vs_logging (tz : Z) (now : Instant) (meds : list Medication)
    (logs : list DoseLog) (m : Medication) (i : Z) :
  In m meds ->
  0 <= i < frequency_per_day m ->
  let today := startOfDay tz now in
  let d := DoseLogging.doseFor logs today now m i in
  let listed x :=
    In x (Reminders.generateScheduledDoses tz now meds logs)
    /\ Reminders.medication x = DoseLogging.medication d
    /\ Reminders.doseNumber x = DoseLogging.doseNumber d
    /\ Reminders.scheduledTime x = DoseLogging.scheduledTime d in
  In d (DoseLogging.generateScheduledDoses tz now meds logs)
  /\ ((exists x, listed x)
      <-> Reminders.activeOn tz now m today = true
          /\ (DoseLogging.status d = DoseLogging.pending
              \/ DoseLogging.status d = DoseLogging.late))
  /\ (DoseLogging.status d = DoseLogging.taken
      \/ DoseLogging.status d = DoseLogging.missed ->
      forall x, ~ listed x)
  /\ (now <> DoseLogging.scheduledTime d ->
      forall x, listed x ->
        (Reminders.isDue x = true
         <-> DoseLogging.status d = DoseLogging.late)).
Proof.
  intros Hm Hi today d listed.
  destruct (doseFor_vs_logging tz logs today now m i)
    as (Hnil & _ & Hsame & Hdue).
  fold d in Hnil, Hsame, Hdue.
  assert (Hback : forall x, listed x ->
            Reminders.activeOn tz now m today = true
            /\ In x (Reminders.doseFor tz logs today now m i)).
  { intros x (Hx & Hmed & Hnum & Htime).
    apply reminders_doses_in in Hx.
    destruct Hx as (o & m' & i' & _ & _ & Ha & _ & Hx).
    destruct (reminders_doseFor_inv _ _ _ _ _ _ _ Hx)
      as (Em & En & Et & _).
    unfold d, DoseLogging.doseFor in Hmed, Hnum, Htime.
    cbn [DoseLogging.medication DoseLogging.doseNumber
         DoseLogging.scheduledTime] in Hmed, Hnum, Htime.
    rewrite Hmed in Em. subst m'.
    assert (i' = i) by lia. subst i'.
    assert (Eday : startOfDay tz (addDays now o) = today).
    { rewrite Htime in Et.
      rewrite (doseTime_shift today), (doseTime_shift (startOfDay _ _)) in Et.
      lia. }
    rewrite Eday in Ha, Hx. split; assumption. }
  split.
  { apply logging_doses_in. exists m, i.
    split; [exact Hm |]. split; [apply in_doseIndices; exact Hi | reflexivity]. }
  split.
  { split.
    - intros [x Hx]. destruct (Hback x Hx) as [Ha Hin].
      split; [exact Ha |].
      destruct (DoseLogging.status d) eqn:E; auto;
        (assert (Hr : Reminders.doseFor tz logs today now m i = [])
           by (apply Hnil; auto));
        rewrite Hr in Hin; destruct Hin.
    - intros [Ha Hs].
      destruct (Reminders.doseFor tz logs today now m i) as [| x r] eqn:Er.
      + exfalso. destruct Hnil as [Hnil _]. specialize (Hnil eq_refl).
        destruct Hs as [Hs | Hs]; destruct Hnil as [Hn | Hn];
          rewrite Hs in Hn; discriminate Hn.
      + exists x. destruct (Hsame x (or_introl eq_refl)) as (E1 & E2 & E3).
        split; [| repeat split; assumption].
        apply reminders_doses_in. exists 0, m, i.
        rewrite startOfDay_today. fold today. rewrite Er.
        split; [apply in_doseIndices; lia |]. split; [exact Hm |].
        split; [exact Ha |].
        split; [apply in_doseIndices; exact Hi | left; reflexivity]. }
  split.
  { intros Hs x Hx. destruct (Hback x Hx) as [_ Hin].
    destruct Hnil as [_ Hnil]. rewrite (Hnil Hs) in Hin. destruct Hin. }
  intros Hne x Hx. destruct (Hback x Hx) as [_ Hin].
  exact (Hdue Hne x Hin).
Qed.

Lemma reminders_vs_logging_witness :
  let now := clockAt day0 17 0 0 in
  let d := DoseLogging.doseFor [] (startOfDay 0 now) now aspirin 1 in
  In aspirin [aspirin]
  /\ 0 <= 1 < frequency_per_day aspirin
  /\ DoseLogging.status d = DoseLogging.late
  /\ exists x,
       In x (Reminders.generateScheduledDoses 0 now [aspirin] [])
       /\ Reminders.medication x = DoseLogging.medication d
       /\ Reminders.doseNumber x = DoseLogging.doseNumber d
       /\ Reminders.scheduledTime x = DoseLogging.scheduledTime d.
Proof.
  intros now d.
  assert (Hm : In aspirin [aspirin]) by (left; reflexivity).
  assert (Hi : 0 <= 1 < frequency_per_day aspirin) by (cbn; lia).
  assert (Hs : DoseLogging.status d = DoseLogging.late)
    by (vm_compute; reflexivity).
  split; [exact Hm |]. split; [exact Hi |]. split; [exact Hs |].
  destruct (reminders_vs_logging 0 now [aspirin] [] aspirin 1 Hm Hi)
    as (_ & W & _).
  apply W. split; [vm_compute; reflexivity | right; exact Hs].
Defined.

(** ** Grouping *)

Section Grouping.
Import Store.
Variable rows : list (DoseLog * Medication).

Lemma key_eqb_eq (a b : Z * string) : key_eqb a b = true <-> a = b.
Proof.
  unfold key_eqb. destruct (key_dec a b); split; congruence.
Qed.

Lemma key_eqb_refl (a : Z * string) : key_eqb a a = true.
Proof. apply key_eqb_eq. reflexivity. Qed.

(** Summing a count over the groups of distinct keys counts the rows whose
    key is one of them. *)
Lemma sum_counts (q : DoseLog * Medication -> bool) (ks : list (Z * string)) :
  NoDup ks ->
  fold_right Z.add 0
    (map (fun k => count (fun r => key_eqb (group_key r) k && q r) rows) ks)
  = count (fun r => existsb (key_eqb (group_key r)) ks && q r) rows.
Proof.
  induction 1 as [| k ks Hk Hnd IH]; simpl.
  - unfold count. induction rows as [| r t IHr]; [reflexivity | exact IHr].
  - rewrite IH. clear IH.
    induction rows as [| r t IHr]; [reflexivity |].
    rewrite !count_cons, <- IHr.
    destruct (key_eqb (group_key r) k) eqn:E; simpl; [| lia].
    apply key_eqb_eq in E.
    assert (X : existsb (key_eqb (group_key r)) ks = false).
    { destruct (existsb _ ks) eqn:X; [| reflexivity].
      apply existsb_exists in X. destruct X as [k' [Hin Hk']].
      apply key_eqb_eq in Hk'. congruence. }
    rewrite X. simpl. lia.
Qed.

Lemma existsb_filter_key (P : Z * string -> bool) (ks : list (Z * string))
    (k : Z * string) :
  In k ks -> existsb (key_eqb k) (filter P ks) = P k.
Proof.
  intros Hin. destruct (P k) eqn:E.
  - apply existsb_exists. exists k. split; [| apply key_eqb_refl].
    apply filter_In. split; assumption.
  - destruct (existsb _ _) eqn:X; [| reflexivity].
    apply existsb_exists in X. destruct X as [k' [Hin' Hk']].
    apply key_eqb_eq in Hk'. subst k'.
    apply filter_In in Hin'. destruct Hin' as [_ Hp]. congruence.
Qed.

Lemma group_key_in_keys (r : DoseLog * Medication) :
  In r rows -> In (group_key r) (keys rows).
Proof. intros H. apply nodup_In. apply in_map. exact H. Qed.

(** Summing an aggregate over the groups selected by [P] counts the rows
    whose key satisfies [P]. *)
Lemma sum_groups (P : Z * string -> bool) (q : DoseLog * Medication -> bool) :
  fold_right Z.add 0
    (map (fun k => count q (group_rows rows k)) (filter P (keys rows)))
  = count (fun r => P (group_key r) && q r) rows.
Proof.
  erewrite map_ext;
    [| intros k; unfold group_rows; apply count_filter].
  rewrite sum_counts; [| apply NoDup_filter, NoDup_nodup].
  apply count_ext. intros r Hr.
  rewrite existsb_filter_key; [reflexivity | apply group_key_in_keys, Hr].
Qed.



End Grouping.


(** ** The ranking of missed medications *)


Section Ranking.
Import Store.
Variables (clock : Instant) (db : Db) (p_user_id : string).

Let rows := selected db p_user_id clock.
Let data := adherence_data db p_user_id clock.







End Ranking.


(** ** The adherence percentage *)


Section WeeklyAdherence.
Import Store.
Variables (clock : Instant) (db : Db) (p_user_id : string).

Let rows := selected db p_user_id clock.
Let data := adherence_data db p_user_id clock.



Lemma filter_all {A : Type} (l : list A) : filter (fun _ => true) l = l.
Proof. induction l as [| x t IH]; simpl; congruence. Qed.



Lemma total_doses_aggregate (k : Z * string) :
  total_doses (aggregate rows k)
  = count (fun r' => key_eqb (group_key r') k) rows.
Proof.
  simpl. unfold group_rows. rewrite count_filter.
  apply count_ext. intros r _. apply andb_true_r.
Qed.


Lemma groupSize_pos (r : DoseLog * Medication) :
  In r rows -> 0 < groupSize rows r.
Proof.
  unfold groupSize. induction rows as [| x t IH]; intros []; rewrite count_cons.
  - subst x. rewrite key_eqb_refl. pose proof (count_nonneg
      (fun r' => key_eqb (group_key r') (group_key r)) t). lia.
  - specialize (IH H).
    destruct (key_eqb (group_key x) (group_key r)); lia.
Qed.





End WeeklyAdherence.


(** The scenario of the specification: seven logged doses in a week, six
    of them on time.  The expression handed to [ROUND] is 600/7, that is
    85.714...; the function itself raises. *)
Example week_of_seven :
  Store.count (fun r => taken_on_time (fst r))
    (Store.selected dbWeek "user-1" endOfWeek) = 6
  /\ List.length (Store.selected dbWeek "user-1" endOfWeek) = 7%nat
  /\ option_map Qred
       (Store.weekly_average (Store.adherence_data dbWeek "user-1" endOfWeek))
     = Some (600 # 7)%Q
  /\ Store.get_adherence_summary endOfWeek dbWeek "user-1"
     = Store.Err Store.UndefinedFunction.
Proof. vm_compute. repeat split; reflexivity. Qed.

(** * Further properties *)

(** ** The schedule of a day *)

Lemma doseIndices_length (f : Z) : List.length (doseIndices f) = Z.to_nat f.
Proof. unfold doseIndices. rewrite length_map, length_seq. reflexivity. Qed.

Lemma increasingb_sorted (l : list Z) :
  increasingb l = true -> StronglySorted Z.lt l.
Proof.
  induction l as [| x t IH]; intros H; [constructor |].
  destruct t as [| y t']; [constructor; constructor |].
  cbn [increasingb] in H. apply andb_true_iff in H. destruct H as [Hxy Ht].
  apply Z.ltb_lt in Hxy. specialize (IH Ht).
  constructor; [exact IH |].
  constructor; [exact Hxy |].
  inversion IH as [| ? ? _ Hy]; subst.
  eapply Forall_impl; [| exact Hy]. intros z Hz. lia.
Qed.

Lemma sorted_nth (l : list Z) :
  StronglySorted Z.lt l ->
  forall a b : nat, (a < b < List.length l)%nat -> nth a l 0 < nth b l 0.
Proof.
  induction 1 as [| x t Hs IH Hx]; intros a b Hab; [simpl in Hab; lia |].
  destruct b as [| b]; [lia |]. simpl in Hab.
  destruct a as [| a]; simpl.
  - rewrite Forall_forall in Hx. apply Hx. apply nth_In. lia.
  - apply IH. lia.
Qed.

Lemma dayOffsets_nth (f i : Z) :
  0 <= i < f -> nth (Z.to_nat i) (dayOffsets f) 0 = doseTime 0 f i.
Proof.
  intros H. unfold dayOffsets, doseIndices.
  rewrite map_map.
  rewrite (nth_indep _ 0 (doseTime 0 f (Z.of_nat 0)))
    by (rewrite length_map, length_seq; lia).
  rewrite (map_nth (fun n => doseTime 0 f (Z.of_nat n))).
  rewrite seq_nth by lia. f_equal. lia.
Qed.

Lemma withinDay_upto_96 (f : Z) : 1 <= f <= 96 -> withinDay f = true.
Proof.
  intros H.
  assert (A : forallb withinDay (map Z.of_nat (seq 1 96)) = true)
    by (vm_compute; reflexivity).
  rewrite forallb_forall in A. apply A.
  apply in_map_iff. exists (Z.to_nat f). split; [lia |]. apply in_seq. lia.
Qed.

Lemma dayOffsets_length (f : Z) : List.length (dayOffsets f) = Z.to_nat f.
Proof. unfold dayOffsets. rewrite length_map. apply doseIndices_length. Qed.

Lemma doseTime_bounds (day f i : Z) :
  1 <= f <= 96 -> 0 <= i < f ->
  day + 8 * msPerHour <= doseTime day f i < day + msPerDay.
Proof.
  intros Hf Hi. pose proof (withinDay_upto_96 f Hf) as W.
  unfold withinDay in W. cbv zeta in W.
  apply andb_true_iff in W. destruct W as [W _].
  apply andb_true_iff in W. destruct W as [_ Hall].
  rewrite forallb_forall in Hall.
  rewrite doseTime_shift, <- (dayOffsets_nth f i) by exact Hi.
  assert (Hin : In (nth (Z.to_nat i) (dayOffsets f) 0) (dayOffsets f))
    by (apply nth_In; rewrite dayOffsets_length; lia).
  specialize (Hall _ Hin). apply andb_true_iff in Hall.
  destruct Hall as [H8 H24]. apply Z.leb_le in H8. apply Z.ltb_lt in H24. lia.
Qed.

(** X1: for a medication taken up to 96 times a day, the doses of a day start
    at 08:00 sharp, are strictly increasing in the dose index, and all fall
    before midnight of that day. *)
Theorem doses_within_day (day f : Z) :
  1 <= f <= 96 ->
  doseTime day f 0 = day + 8 * msPerHour
  /\ (forall i, 0 <= i < f ->
        day + 8 * msPerHour <= doseTime day f i < day + msPerDay)
  /\ (forall i j, 0 <= i -> i < j -> j < f ->
        doseTime day f i < doseTime day f j).
Proof.
  intros Hf. pose proof (withinDay_upto_96 f Hf) as W.
  unfold withinDay in W. cbv zeta in W.
  apply andb_true_iff in W. destruct W as [W Hhd].
  apply andb_true_iff in W. destruct W as [Hinc _].
  pose proof (dayOffsets_length f) as Hlen.
  split; [| split].
  - rewrite doseTime_shift, <- (dayOffsets_nth f 0) by lia.
    change (Z.to_nat 0) with 0%nat.
    destruct (dayOffsets f) as [| x t]; [simpl in Hlen; lia |].
    simpl in Hhd |- *. apply Z.eqb_eq in Hhd. lia.
  - intros i Hi. apply doseTime_bounds; assumption.
  - intros i j Hi Hij Hj.
    rewrite (doseTime_shift day f i), (doseTime_shift day f j).
    rewrite <- (dayOffsets_nth f i), <- (dayOffsets_nth f j) by lia.
    pose proof (sorted_nth _ (increasingb_sorted _ Hinc)
                  (Z.to_nat i) (Z.to_nat j)) as S.
    specialize (S ltac:(lia)). lia.
Qed.

Lemma doses_within_day_witness :
  1 <= 3 <= 96
  /\ doseTime day0 3 0 = day0 + 8 * msPerHour
  /\ (forall i, 0 <= i < 3 ->
        day0 + 8 * msPerHour <= doseTime day0 3 i < day0 + msPerDay)
  /\ (forall i j, 0 <= i -> i < j -> j < 3 ->
        doseTime day0 3 i < doseTime day0 3 j).
Proof.
  split; [lia |]. apply (doses_within_day day0 3). lia.
Defined.

(** ** Days *)

Lemma startOfDay_addDays (tz d n : Z) :
  startOfDay tz (addDays d n) = addDays (startOfDay tz d) n.
Proof.
  unfold startOfDay, addDays.
  replace (d + n * msPerDay + tz) with (d + tz + n * msPerDay) by lia.
  rewrite Z_mod_plus_full. lia.
Qed.

Lemma startOfDay_le (tz d : Z) : startOfDay tz d <= d < startOfDay tz d + msPerDay.
Proof.
  unfold startOfDay.
  pose proof (Z.mod_pos_bound (d + tz) msPerDay ltac:(reflexivity)). lia.
Qed.

(** An instant from a local midnight up to the next one lies in that day. *)
Lemma startOfDay_within (tz d s : Z) :
  startOfDay tz d <= s < startOfDay tz d + msPerDay ->
  startOfDay tz s = startOfDay tz d.
Proof.
  unfold startOfDay, msPerDay. intros H.
  pose proof (Z.div_mod (d + tz) 86400000 ltac:(lia)) as E1.
  pose proof (Z.mod_pos_bound (d + tz) 86400000 ltac:(lia)) as B1.
  pose proof (Z.div_mod (s + tz) 86400000 ltac:(lia)) as E2.
  pose proof (Z.mod_pos_bound (s + tz) 86400000 ltac:(lia)) as B2.
  nia.
Qed.

(** ** The list of the dose-logging page *)

Lemma length_flat_map_sum {A B : Type} (f : A -> list B) (l : list A) :
  List.length (flat_map f l) = list_sum (map (fun x => List.length (f x)) l).
Proof.
  induction l as [| x t IH]; [reflexivity |].
  simpl. rewrite length_app, IH. reflexivity.
Qed.

(** X2: the dose-logging page shows, for every medication it was given, one
    dose per dose number from 1 to the frequency, and nothing else: in
    total the sum of the frequencies, a medication with a frequency of
    zero or less contributing none. *)
Theorem logging_doses_complete (tz : Z) (now : Instant)
    (meds : list Medication) (logs : list DoseLog) :
  let doses := DoseLogging.generateScheduledDoses tz now meds logs in
  List.length doses
  = list_sum (map (fun m => Z.to_nat (frequency_per_day m)) meds)
  /\ (forall m k, In m meds -> 1 <= k <= frequency_per_day m ->
        exists d, In d doses /\ DoseLogging.medication d = m
                  /\ DoseLogging.doseNumber d = k)
  /\ (forall d, In d doses ->
        In (DoseLogging.medication d) meds
        /\ 1 <= DoseLogging.doseNumber d
             <= frequency_per_day (DoseLogging.medication d)
        /\ DoseLogging.scheduledTime d
           = doseTime (startOfDay tz now)
               (frequency_per_day (DoseLogging.medication d))
               (DoseLogging.doseNumber d - 1)
        /\ DoseLogging.status d
           = DoseLogging.statusOf logs now (DoseLogging.medication d)
               (DoseLogging.scheduledTime d)).
Proof.
  intros doses. split; [| split].
  - unfold doses, DoseLogging.generateScheduledDoses.
    rewrite (Permutation_length (sort_by_perm _ _)), length_flat_map_sum.
    f_equal. apply map_ext. intros m.
    rewrite length_map. apply doseIndices_length.
  - intros m k Hm Hk.
    exists (DoseLogging.doseFor logs (startOfDay tz now) now m (k - 1)).
    split; [| split; [reflexivity | simpl; lia]].
    apply logging_doses_in. exists m, (k - 1).
    split; [exact Hm |]. split; [apply in_doseIndices; lia | reflexivity].
  - intros d Hd. apply logging_doses_in in Hd.
    destruct Hd as [m [i [Hm [Hi ->]]]]. apply in_doseIndices in Hi.
    simpl. replace (i + 1 - 1) with i by lia.
    repeat split; [exact Hm | lia | lia].
Qed.

Lemma logging_doses_complete_witness :
  In aspirin [aspirin] /\ 1 <= 2 <= frequency_per_day aspirin
  /\ exists d,
       In d (DoseLogging.generateScheduledDoses 0 (clockAt day0 9 0 0)
               [aspirin] [takenLog])
       /\ DoseLogging.medication d = aspirin
       /\ DoseLogging.doseNumber d = 2.
Proof.
  assert (Hm : In aspirin [aspirin]) by (left; reflexivity).
  assert (Hk : 1 <= 2 <= frequency_per_day aspirin) by (simpl; lia).
  split; [exact Hm |]. split; [exact Hk |].
  destruct (logging_doses_complete 0 (clockAt day0 9 0 0) [aspirin] [takenLog])
    as (_ & W & _).
  exact (W aspirin 2 Hm Hk).
Defined.

(** X3: both pages hand out their doses in ascending order of scheduled
    time. *)
Theorem doses_in_time_order (tz : Z) (now : Instant) (meds : list Medication)
    (logs : list DoseLog) :
  StronglySorted (fun a b => DoseLogging.scheduledTime a
                             <= DoseLogging.scheduledTime b)
    (DoseLogging.generateScheduledDoses tz now meds logs)
  /\ StronglySorted (fun a b => Reminders.scheduledTime a
                                <= Reminders.scheduledTime b)
       (Reminders.generateScheduledDoses tz now meds logs).
Proof.
  split.
  - apply (sort_by_sorted DoseLogging.scheduledTime).
  - apply (sort_by_sorted Reminders.scheduledTime).
Qed.

(** ** The list of the reminders page *)

(** X4: the reminders page lists only open doses of the medications it was
    given: a listed dose has no log, is not more than four hours past its
    scheduled time, carries a dose number of its medication, is flagged due
    exactly when its scheduled time has come, and a due dose is never on
    the upcoming tab. *)
Theorem reminders_list_only_open_doses (tz : Z) (now : Instant)
    (meds : list Medication) (logs : list DoseLog)
    (x : Reminders.ScheduledDose) :
  In x (Reminders.generateScheduledDoses tz now meds logs) ->
  In (Reminders.medication x) meds
  /\ 1 <= Reminders.doseNumber x <= frequency_per_day (Reminders.medication x)
  /\ findDoseLog logs (Reminders.medication x) (Reminders.scheduledTime x)
     = None
  /\ now <= Reminders.scheduledTime x + 4 * msPerHour
  /\ (Reminders.isDue x = true <-> Reminders.scheduledTime x <= now)
  /\ (Reminders.isDue x = true -> Reminders.isUpcoming x = false).
Proof.
  intros H. apply reminders_doses_in in H.
  destruct H as [o [m [i [_ [Hm [_ [Hi H]]]]]]].
  apply in_doseIndices in Hi.
  destruct (reminders_doseFor_inv _ _ _ _ _ _ _ H)
    as (-> & -> & -> & Hlog & Hw & Hdue & _ & _ & Hup).
  rewrite Hdue, Hup.
  split; [exact Hm |]. split; [lia |]. split; [exact Hlog |].
  split; [exact Hw |]. split; [apply Z.leb_le |].
  intros Hd. apply Z.leb_le in Hd.
  destruct (Z.ltb_spec now (doseTime (startOfDay tz (addDays now o))
                              (frequency_per_day m) i)); [lia |].
  apply andb_false_r.
Qed.

Lemma reminders_list_only_open_doses_witness :
  let doses := Reminders.generateScheduledDoses 0 (clockAt day0 17 0 0)
                 [aspirin] [takenLog] in
  exists x, In x doses
    /\ findDoseLog [takenLog] (Reminders.medication x)
         (Reminders.scheduledTime x) = None
    /\ clockAt day0 17 0 0 <= Reminders.scheduledTime x + 4 * msPerHour
    /\ Reminders.isDue x = true.
Proof.
  intros doses.
  assert (H : In (hd (Reminders.mkScheduledDose aspirin 0 0 false false false
                        false) doses) doses)
    by (vm_compute; left; reflexivity).
  eexists. split; [exact H |].
  destruct (reminders_list_only_open_doses 0 (clockAt day0 17 0 0) [aspirin]
              [takenLog] _ H) as (_ & _ & Hlog & Hw & Hdue & _).
  split; [exact Hlog |]. split; [exact Hw |].
  apply Hdue. vm_compute. discriminate.
Defined.

(** X5: with up to 96 doses a day, every dose the reminders page lists is on
    exactly one of its three tabs: today, tomorrow or upcoming. *)
Theorem reminders_tabs_partition (tz : Z) (now : Instant)
    (meds : list Medication) (logs : list DoseLog)
    (x : Reminders.ScheduledDose) :
  (forall m, In m meds -> frequency_per_day m <= 96) ->
  In x (Reminders.generateScheduledDoses tz now meds logs) ->
  (Reminders.isToday x = true /\ Reminders.isTomorrow x = false
   /\ Reminders.isUpcoming x = false)
  \/ (Reminders.isToday x = false /\ Reminders.isTomorrow x = true
      /\ Reminders.isUpcoming x = false)
  \/ (Reminders.isToday x = false /\ Reminders.isTomorrow x = false
      /\ Reminders.isUpcoming x = true).
Proof.
  intros Hf H. apply reminders_doses_in in H.
  destruct H as [o [m [i [Ho [Hm [_ [Hi H]]]]]]].
  apply in_doseIndices in Ho. apply in_doseIndices in Hi.
  destruct (reminders_doseFor_inv _ _ _ _ _ _ _ H)
    as (_ & _ & _ & _ & _ & _ & -> & -> & ->).
  set (day := startOfDay tz (addDays now o)) in *.
  set (s := doseTime day (frequency_per_day m) i).
  pose proof (doseTime_bounds day (frequency_per_day m) i
                ltac:(specialize (Hf m Hm); lia) Hi) as B.
  fold s in B.
  assert (Es : startOfDay tz s = day).
  { apply startOfDay_within. fold day. unfold msPerHour in B. lia. }
  assert (Ed : day = startOfDay tz now + o * msPerDay).
  { unfold day. rewrite startOfDay_addDays. reflexivity. }
  pose proof (startOfDay_le tz now) as Bn.
  unfold isToday, isTomorrow, isSameDay.
  rewrite Es, startOfDay_addDays. unfold addDays. rewrite Ed.
  unfold msPerDay, msPerHour in *.
  destruct (Z.eqb_spec (startOfDay tz now + o * 86400000) (startOfDay tz now));
    destruct (Z.eqb_spec (startOfDay tz now + o * 86400000)
                (startOfDay tz now + 1 * 86400000));
    destruct (Z.ltb_spec now s); simpl; try lia; auto.
Qed.

Lemma reminders_tabs_partition_witness :
  let doses := Reminders.generateScheduledDoses 0 (clockAt day0 17 0 0)
                 [aspirin] [] in
  (forall m, In m [aspirin] -> frequency_per_day m <= 96)
  /\ exists x, In x doses
       /\ ((Reminders.isToday x = true /\ Reminders.isTomorrow x = false
            /\ Reminders.isUpcoming x = false)
           \/ (Reminders.isToday x = false /\ Reminders.isTomorrow x = true
               /\ Reminders.isUpcoming x = false)
           \/ (Reminders.isToday x = false /\ Reminders.isTomorrow x = false
               /\ Reminders.isUpcoming x = true)).
Proof.
  intros doses.
  assert (Hf : forall m, In m [aspirin] -> frequency_per_day m <= 96).
  { intros m [<- | []]. simpl. lia. }
  assert (H : In (hd (Reminders.mkScheduledDose aspirin 0 0 false false false
                        false) doses) doses)
    by (vm_compute; left; reflexivity).
  split; [exact Hf |]. eexists. split; [exact H |].
  exact (reminders_tabs_partition 0 (clockAt day0 17 0 0) [aspirin] [] _ Hf H).
Defined.

(** X6: a medication whose end date, to the end of that local day, lies before
    today is never listed on the reminders page, on none of the seven
    days. *)
Theorem reminders_skip_ended (tz : Z) (now : Instant)
    (meds : list Medication) (logs : list DoseLog) (m : Medication) (e : Z)
    (x : Reminders.ScheduledDose) :
  end_date m = Some e ->
  endOfDay tz (e * msPerDay) < startOfDay tz now ->
  In x (Reminders.generateScheduledDoses tz now meds logs) ->
  Reminders.medication x <> m.
Proof.
  intros He Hend H E. apply reminders_doses_in in H.
  destruct H as [o [m' [i [Ho [_ [Ha [_ H]]]]]]].
  apply in_doseIndices in Ho.
  destruct (reminders_doseFor_inv _ _ _ _ _ _ _ H) as (Em & _).
  rewrite Em in E. subst m'.
  unfold Reminders.activeOn, Reminders.endDate in Ha. rewrite He in Ha.
  apply andb_true_iff in Ha. destruct Ha as [_ Ha]. apply Z.leb_le in Ha.
  rewrite startOfDay_addDays in Ha. unfold addDays, msPerDay in *. lia.
Qed.

Lemma reminders_skip_ended_witness :
  end_date endedCourse = Some 19999
  /\ endOfDay 0 (19999 * msPerDay) < startOfDay 0 (clockAt day0 9 0 0)
  /\ forall x,
       In x (Reminders.generateScheduledDoses 0 (clockAt day0 9 0 0)
               [endedCourse; aspirin] []) ->
       Reminders.medication x <> endedCourse.
Proof.
  assert (He : end_date endedCourse = Some 19999) by reflexivity.
  assert (Hend : endOfDay 0 (19999 * msPerDay)
                 < startOfDay 0 (clockAt day0 9 0 0)) by reflexivity.
  split; [exact He |]. split; [exact Hend |].
  intros x.
  exact (reminders_skip_ended 0 (clockAt day0 9 0 0) [endedCourse; aspirin] []
           endedCourse 19999 x He Hend).
Defined.

(** ** The queries for medications *)

(** X8: in a UTC locale the reminders page takes a medication as active today
    exactly when it passes the filter of the dose-logging page's query. *)
Theorem active_today_utc (now : Instant) (m : Medication) :
  Reminders.activeOn 0 now m (startOfDay 0 now)
  = DoseLogging.activeToday now m.
Proof.
  unfold Reminders.activeOn, DoseLogging.activeToday, Reminders.startDate,
    Reminders.endDate, endOfDay, startOfDay, addDays, isoDate, msPerDay.
  rewrite !Z.add_0_r.
  pose proof (Z.div_mod now 86400000 ltac:(lia)) as E.
  pose proof (Z.mod_pos_bound now 86400000 ltac:(lia)) as B.
  rewrite Z_mod_mult. f_equal.
  - destruct (Z.leb_spec (start_date m * 86400000 - 0)
                (now - now mod 86400000));
      destruct (Z.leb_spec (start_date m) (now / 86400000));
      try reflexivity; nia.
  - destruct (end_date m) as [e |].
    + rewrite Z_mod_mult.
      destruct (Z.leb_spec (now - now mod 86400000)
                  (e * 86400000 - 0 + 86400000 - 1));
        destruct (Z.leb_spec (now / 86400000) e); try reflexivity; nia.
    + pose proof (Z.mod_pos_bound (now + 365 * 86400000) 86400000
                    ltac:(lia)).
      apply Z.leb_le. lia.
Qed.

Lemma startOfDay_localDate (tz d : Z) :
  startOfDay tz d = (d + tz) / msPerDay * msPerDay - tz.
Proof.
  unfold startOfDay, msPerDay.
  pose proof (Z.div_mod (d + tz) 86400000 ltac:(lia)). lia.
Qed.

(** The local day in which the UTC midnight of date [k] falls: date [k]
    itself from UTC eastwards, the day before west of UTC. *)
Lemma localDate_of_utc_midnight (tz k : Z) :
  - msPerDay < tz < msPerDay ->
  (k * msPerDay + tz) / msPerDay = k - (if tz <? 0 then 1 else 0).
Proof.
  intros H. unfold msPerDay in *.
  rewrite Z.add_comm, Z.div_add by lia.
  destruct (Z.ltb_spec tz 0).
  - assert (tz / 86400000 = -1); [| lia].
    symmetry. apply (Z.div_unique tz 86400000 (-1) (tz + 86400000)); lia.
  - rewrite Z.div_small by lia. lia.
Qed.

(** X7: on the reminders page a medication with an end date is scheduled on a
    local day exactly when that day lies between its start date and its
    end date, both inclusive, from UTC eastwards; west of UTC both bounds
    lie one day earlier, so the course starts a day early and its last day
    is left out. *)
Theorem reminders_active_days (tz : Z) (now : Instant) (m : Medication)
    (o e : Z) :
  - msPerDay < tz < msPerDay ->
  end_date m = Some e ->
  let localDate := (addDays now o + tz) / msPerDay in
  let shift := if tz <? 0 then 1 else 0 in
  Reminders.activeOn tz now m (startOfDay tz (addDays now o)) = true
  <-> start_date m - shift <= localDate <= e - shift.
Proof.
  intros Htz He localDate shift.
  unfold Reminders.activeOn, Reminders.startDate, Reminders.endDate, endOfDay.
  rewrite He, !startOfDay_localDate.
  rewrite !(localDate_of_utc_midnight tz) by exact Htz.
  fold localDate. fold shift.
  rewrite andb_true_iff, !Z.leb_le. unfold msPerDay. lia.
Qed.

Lemma reminders_active_days_witness :
  - msPerDay < - 5 * msPerHour < msPerDay
  /\ end_date endedCourse = Some 19999
  /\ (Reminders.activeOn (- 5 * msPerHour) (clockAt day0 1 0 0) endedCourse
        (startOfDay (- 5 * msPerHour) (addDays (clockAt day0 1 0 0) 0)) = true
      <-> start_date endedCourse - 1
          <= (addDays (clockAt day0 1 0 0) 0 + - 5 * msPerHour) / msPerDay
          <= 19999 - 1).
Proof.
  assert (Htz : - msPerDay < - 5 * msPerHour < msPerDay)
    by (unfold msPerDay, msPerHour; lia).
  assert (He : end_date endedCourse = Some 19999) by reflexivity.
  split; [exact Htz |]. split; [exact He |].
  exact (reminders_active_days (- 5 * msPerHour) (clockAt day0 1 0 0)
           endedCourse 0 19999 Htz He).
Defined.

(** X9: whatever the offset from UTC (less than a day either way), the query
    of the reminders page never drops a medication that its seven-day loop
    would schedule. *)
Theorem reminders_fetch_keeps_scheduled (tz : Z) (now : Instant)
    (m : Medication) (o : Z) :
  - msPerDay < tz < msPerDay ->
  0 <= o < 7 ->
  Reminders.activeOn tz now m (startOfDay tz (addDays now o)) = true ->
  Reminders.fetchable now m = true.
Proof.
  unfold Reminders.activeOn, Reminders.fetchable, Reminders.startDate,
    Reminders.endDate, endOfDay.
  intros Htz Ho H. apply andb_true_iff in H. destruct H as [Hs He].
  apply Z.leb_le in Hs.
  rewrite !startOfDay_localDate in Hs.
  rewrite (localDate_of_utc_midnight tz) in Hs by exact Htz.
  pose proof (Z.div_mod (now + o * msPerDay + tz) msPerDay
                ltac:(discriminate)) as E1.
  pose proof (Z.mod_pos_bound (now + o * msPerDay + tz) msPerDay
                ltac:(reflexivity)) as B1.
  unfold isoDate, addDays, msPerDay in *.
  destruct (Z.ltb_spec tz 0) as [Hneg | Hpos].
  all: apply andb_true_iff; split;
    [ apply Z.leb_le; apply Z.div_le_lower_bound; lia
    | destruct (end_date m) as [e |]; [| reflexivity];
      apply Z.leb_le in He; apply Z.leb_le;
      rewrite !startOfDay_localDate in He;
      rewrite (localDate_of_utc_midnight tz) in He
        by (unfold msPerDay; exact Htz);
      unfold msPerDay in He;
      pose proof (Z.div_mod now 86400000 ltac:(lia)) as E2;
      pose proof (Z.mod_pos_bound now 86400000 ltac:(lia)) as B2;
      destruct (Z.ltb_spec tz 0); lia ].
Qed.

Lemma reminders_fetch_keeps_scheduled_witness :
  - msPerDay < 19800000 < msPerDay /\ 0 <= 3 < 7
  /\ Reminders.activeOn 19800000 (clockAt day0 9 0 0) aspirin
       (startOfDay 19800000 (addDays (clockAt day0 9 0 0) 3)) = true
  /\ Reminders.fetchable (clockAt day0 9 0 0) aspirin = true.
Proof.
  assert (Htz : - msPerDay < 19800000 < msPerDay) by (unfold msPerDay; lia).
  assert (Ho : 0 <= 3 < 7) by lia.
  assert (Ha : Reminders.activeOn 19800000 (clockAt day0 9 0 0) aspirin
                 (startOfDay 19800000 (addDays (clockAt day0 9 0 0) 3)) = true)
    by reflexivity.
  split; [exact Htz |]. split; [exact Ho |]. split; [exact Ha |].
  exact (reminders_fetch_keeps_scheduled 19800000 (clockAt day0 9 0 0) aspirin 3
           Htz Ho Ha).
Defined.

(** ** Who may record a dose *)

Lemma select_user_id_exists (db : Store.Db) (id : string) :
  (exists owner, Store.select_user_id db id = Some owner)
  <-> medicationExists db id.
Proof.
  unfold Store.select_user_id, medicationExists. split.
  - intros [owner H].
    destruct (find _ (Store.medications db)) as [m |] eqn:E; [| discriminate].
    apply find_some in E. destruct E as [Hin Hid].
    apply String.eqb_eq in Hid. exists m. split; assumption.
  - intros [m [Hin Hid]].
    destruct (find _ (Store.medications db)) as [m' |] eqn:E.
    + eexists. reflexivity.
    + apply (find_none _ _ E) in Hin. simpl in Hin.
      rewrite Hid, String.eqb_refl in Hin. discriminate.
Qed.

Lemma existsb_medication (db : Store.Db) (id : string) :
  existsb (fun m => String.eqb (med_id m) id) (Store.medications db) = true
  <-> medicationExists db id.
Proof.
  unfold medicationExists. rewrite existsb_exists.
  split; intros [m [Hin H]]; exists m; split; try exact Hin;
    apply String.eqb_eq; exact H.
Qed.

(** X10: [log_dose] raises 'Not authorized' exactly when the medication exists
    and the caller is signed in as somebody other than its owner; a call
    that passes this check fails only for a medication that does not
    exist; a failed call leaves the tables as they were. *)
Theorem log_dose_not_authorized_iff (auth_uid : option string)
    (clock : Instant) (db : Store.Db) (id : string)
    (scheduled actual : Instant) :
  let r := Store.log_dose auth_uid clock db id scheduled actual in
  (fst r = Store.Err Store.NotAuthorized
   <-> exists owner caller,
         Store.select_user_id db id = Some owner
         /\ auth_uid = Some caller /\ owner <> caller)
  /\ (fst r = Store.Err Store.ForeignKeyViolation <-> ~ medicationExists db id)
  /\ (forall e, fst r = Store.Err e ->
        (e = Store.NotAuthorized \/ e = Store.ForeignKeyViolation)
        /\ snd r = db).
Proof.
  intros r. unfold r, Store.log_dose, Store.insert_dose_log.
  rewrite <- select_user_id_exists.
  destruct (Store.select_user_id db id) as [owner |] eqn:Es.
  - rewrite (select_user_id_some db id owner Es).
    destruct auth_uid as [caller |]; simpl.
    + destruct (String.eqb_spec owner caller) as [-> | Hne]; simpl.
      * repeat split; try discriminate.
        -- intros (o & c & Ho & Hc & Hneq). congruence.
        -- intros H. exfalso. apply H. eexists. reflexivity.
      * repeat split; try discriminate; auto.
        -- intros _. exists owner, caller. auto.
        -- intros H. exfalso. apply H. eexists. reflexivity.
        -- inversion H. auto.
    + repeat split; try discriminate.
      * intros (o & c & _ & Hc & _). discriminate.
      * intros H. exfalso. apply H. eexists. reflexivity.
  - assert (Hex : existsb (fun m => String.eqb (med_id m) id)
                    (Store.medications db) = false).
    { destruct (existsb _ _) eqn:E; [| reflexivity].
      apply existsb_medication, select_user_id_exists in E.
      destruct E as [o E]. congruence. }
    rewrite Hex. simpl. repeat split; try discriminate; auto.
    + intros (o & c & Ho & _). discriminate.
    + intros _ [o Ho]. discriminate.
    + inversion H. auto.
Qed.

(** X11: a caller who is not signed in passes the ownership check of
    [log_dose]: for any stored medication, whoever owns it, the call
    succeeds and stores the row. *)
Theorem log_dose_anonymous (clock : Instant) (db : Store.Db) (id : string)
    (scheduled actual : Instant) :
  medicationExists db id ->
  Store.log_dose None clock db id scheduled actual
  = (Store.Ok (Store.mkLogDoseJson true
                 (actual <=? scheduled + 4 * msPerHour)
                 (actual <=? scheduled + 4 * msPerHour)),
     Store.mkDb (Store.medications db)
       (Store.dose_logs db ++ [loggedRow clock db id scheduled actual])
       (S (Store.next_id db))).
Proof.
  intros H. unfold Store.log_dose, Store.insert_dose_log.
  apply existsb_medication in H. rewrite H.
  destruct (Store.select_user_id db id); reflexivity.
Qed.

Lemma log_dose_anonymous_witness :
  medicationExists db0 "med-1"
  /\ Store.log_dose None (clockAt day0 9 0 0) db0 "med-1" (clockAt day0 8 0 0)
       (clockAt day0 9 0 0)
     = (Store.Ok (Store.mkLogDoseJson true
                    (clockAt day0 9 0 0 <=? clockAt day0 8 0 0 + 4 * msPerHour)
                    (clockAt day0 9 0 0 <=? clockAt day0 8 0 0 + 4 * msPerHour)),
        Store.mkDb (Store.medications db0)
          (Store.dose_logs db0
           ++ [loggedRow (clockAt day0 9 0 0) db0 "med-1" (clockAt day0 8 0 0)
                 (clockAt day0 9 0 0)])
          (S (Store.next_id db0))).
Proof.
  assert (H : medicationExists db0 "med-1").
  { exists aspirin. split; [left |]; reflexivity. }
  split; [exact H |].
  exact (log_dose_anonymous (clockAt day0 9 0 0) db0 "med-1"
           (clockAt day0 8 0 0) (clockAt day0 9 0 0) H).
Defined.



(** A payload that gives [id] and [created_at] is stored with them, and a
    second row with the same [id] is refused. *)
Example direct_insert_with_id :
  let p := [ ("id", Store.JUuid 7);
             ("medication_id", Store.JString "med-1");
             ("scheduled_time", Store.JInstant (clockAt day0 8 0 0));
             ("timestamp_taken", Store.JInstant (clockAt day0 8 5 0));
             ("taken_on_time", Store.JBool true);
             ("created_at", Store.JInstant (clockAt day0 7 0 0)) ]%string in
  let r1 := Store.from_dose_logs_insert None (clockAt day0 8 5 0) db0 p in
  let r2 := Store.from_dose_logs_insert None (clockAt day0 8 6 0) (snd r1) p in
  fst r1 = Store.Ok (mkDoseLog 7 "med-1" (clockAt day0 8 5 0)
                       (clockAt day0 8 0 0) true (Some false)
                       (clockAt day0 7 0 0))
  /\ Store.next_id (snd r1) = 8%nat
  /\ r2 = (Store.Err Store.UniqueViolation, snd r1).
Proof. vm_compute. repeat split; reflexivity. Qed.

(** X13: recording is append-only and keeps the foreign key: whatever the
    outcome of [log_dose] or of a direct insert, the medications are left
    as they were, every earlier log is kept in place, at most one log is
    added at the end, and every log still refers to a stored medication. *)
Theorem recording_is_append_only (auth_uid : option string) (clock : Instant)
    (db : Store.Db) (id : string) (scheduled actual : Instant)
    (p : Store.Payload) (db' : Store.Db) :
  db' = snd (Store.log_dose auth_uid clock db id scheduled actual)
  \/ db' = snd (Store.from_dose_logs_insert auth_uid clock db p) ->
  Store.medications db' = Store.medications db
  /\ (exists added, Store.dose_logs db' = Store.dose_logs db ++ added
                    /\ (List.length added <= 1)%nat)
  /\ (fk_ok db -> fk_ok db').
Proof.
  assert (Ins : forall c m t s b r,
            let db1 := snd (Store.insert_dose_log c db m t s b r) in
            Store.medications db1 = Store.medications db
            /\ (exists added, Store.dose_logs db1 = Store.dose_logs db ++ added
                              /\ (List.length added <= 1)%nat)
            /\ (fk_ok db -> fk_ok db1)).
  { intros c m t s b r. unfold Store.insert_dose_log.
    destruct (existsb _ _) eqn:E; simpl.
    - split; [reflexivity |].
      split; [eexists; split; [reflexivity | simpl; lia] |].
      intros Hfk l Hl. simpl in Hl. apply in_app_or in Hl.
      destruct Hl as [Hl | [<- | []]]; [apply Hfk, Hl |].
      apply existsb_medication in E. exact E.
    - split; [reflexivity |].
      split; [exists []; rewrite app_nil_r; split; [reflexivity | simpl; lia] |].
      auto. }
  assert (Same : Store.medications db = Store.medications db
            /\ (exists added, Store.dose_logs db = Store.dose_logs db ++ added
                              /\ (List.length added <= 1)%nat)
            /\ (fk_ok db -> fk_ok db)).
  { split; [reflexivity |].
    split; [exists []; rewrite app_nil_r; split; [reflexivity | simpl; lia] |].
    auto. }
  assert (Keyed : forall key c m t s b r,
            let db1 := snd (Store.insert_dose_log_keyed key c db m t s b r) in
            Store.medications db1 = Store.medications db
            /\ (exists added, Store.dose_logs db1 = Store.dose_logs db ++ added
                              /\ (List.length added <= 1)%nat)
            /\ (fk_ok db -> fk_ok db1)).
  { intros key c m t s b r. unfold Store.insert_dose_log_keyed.
    destruct (existsb _ (Store.dose_logs db)); [exact Same |].
    destruct (existsb _ (Store.medications db)) eqn:E; [| exact Same].
    simpl. split; [reflexivity |].
    split; [eexists; split; [reflexivity | simpl; lia] |].
    intros Hfk l Hl. simpl in Hl. apply in_app_or in Hl.
    destruct Hl as [Hl | [<- | []]]; [apply Hfk, Hl |].
    apply existsb_medication in E. exact E. }
  intros [-> | ->].
  - unfold Store.log_dose.
    destruct (Store.sql_if _); [exact Same |].
    specialize (Ins clock id actual scheduled
                  (actual <=? scheduled + 4 * msPerHour)
                  (Some (actual <=? scheduled + 4 * msPerHour))).
    destruct (Store.insert_dose_log _ _ _ _ _ _ _) as [[j | e] d]; exact Ins.
  - unfold Store.from_dose_logs_insert.
    destruct (Store.unknown_column p); [exact Same |].
    destruct (Store.get p "medication_id") as [[m | | | |] |];
      try exact Same.
    destruct (Store.get p "timestamp_taken") as [[| | t | |] |];
      try exact Same.
    destruct (Store.get p "scheduled_time") as [[| | s | |] |];
      try exact Same.
    destruct (Store.get p "taken_on_time") as [[| b | | |] |];
      try exact Same.
    destruct (negb _ || _); [| exact Same].
    destruct (Store.sent_created_at clock p) as [created | e];
      [| exact Same].
    destruct (Store.get p "id") as [[| | | | key] |]; try exact Same;
      [apply Keyed | apply Ins].
Qed.

Lemma recording_is_append_only_witness :
  let db' := snd (Store.log_dose (Some "user-1"%string) (clockAt day0 9 0 0)
                    dbOnTime "med-1" (clockAt day0 16 0 0) (clockAt day0 16 5 0)) in
  Store.medications db' = Store.medications dbOnTime
  /\ (exists added, Store.dose_logs db' = Store.dose_logs dbOnTime ++ added
                    /\ (List.length added <= 1)%nat)
  /\ (fk_ok dbOnTime -> fk_ok db').
Proof.
  intros db'.
  apply (recording_is_append_only (Some "user-1"%string) (clockAt day0 9 0 0)
           dbOnTime "med-1" (clockAt day0 16 0 0) (clockAt day0 16 5 0) [] db').
  left. reflexivity.
Defined.

Lemma log_dose_not_authorized_iff_witness :
  (exists owner caller,
     Store.select_user_id db0 "med-1" = Some owner
     /\ Some "user-2"%string = Some caller /\ owner <> caller)
  /\ fst (Store.log_dose (Some "user-2"%string) (clockAt day0 9 0 0) db0 "med-1"
            (clockAt day0 8 0 0) (clockAt day0 9 0 0))
     = Store.Err Store.NotAuthorized.
Proof.
  assert (H : exists owner caller,
            Store.select_user_id db0 "med-1" = Some owner
            /\ Some "user-2"%string = Some caller /\ owner <> caller).
  { exists "user-1"%string, "user-2"%string.
    repeat split. discriminate. }
  split; [exact H |].
  destruct (log_dose_not_authorized_iff (Some "user-2"%string)
              (clockAt day0 9 0 0) db0 "med-1" (clockAt day0 8 0 0)
              (clockAt day0 9 0 0)) as (W & _).
  apply W. exact H.
Defined.

(** ** The adherence summary *)

Section Summary.
Import Store.
Variables (clock : Instant) (db : Db) (p_user_id : string).

Let rows := selected db p_user_id clock.
Let data := adherence_data db p_user_id clock.

Lemma data_eq : data = map (aggregate rows) (keys rows).
Proof. reflexivity. Qed.

Lemma keys_nil_iff : keys rows = [] <-> rows = [].
Proof.
  split.
  - intros H. destruct rows as [| r t] eqn:E; [reflexivity |].
    pose proof (group_key_in_keys (r :: t) r (or_introl eq_refl)) as Hin.
    rewrite H in Hin. destruct Hin.
  - intros ->. reflexivity.
Qed.

Lemma in_keys (k : Z * string) :
  In k (keys rows) -> exists r, In r rows /\ group_key r = k.
Proof.
  intros H. apply nodup_In, in_map_iff in H.
  destruct H as [r [E Hr]]. exists r. split; assumption.
Qed.

Lemma aggregate_counts (k : Z * string) :
  In k (keys rows) ->
  let a := aggregate rows k in
  total_doses a = on_time_doses a + missed_count a
  /\ 1 <= total_doses a /\ 0 <= on_time_doses a /\ 0 <= missed_count a.
Proof.
  intros Hk a. unfold a. cbn [total_doses on_time_doses missed_count aggregate].
  pose proof (count_split (fun _ : DoseLog * Medication => true)
                (fun r => taken_on_time (fst r)) (group_rows rows k)) as S.
  cbn [andb] in S.
  split; [exact S |]. split; [| split; apply count_nonneg].
  destruct (in_keys k Hk) as [r [Hr <-]].
  pose proof (groupSize_pos clock db p_user_id r Hr) as P.
  pose proof (total_doses_aggregate clock db p_user_id (group_key r)) as T.
  cbn [total_doses aggregate] in T. fold rows in T, P.
  rewrite T. unfold groupSize in P. lia.
Qed.

End Summary.

(** X14: every row of [adherence_data] stands for a non-empty group of logs:
    its on-time and missed counts add up to its total, which is at least
    one; no two rows share a day and a medication name; and the totals add
    up to the number of logs selected, so no log is counted twice or
    lost. *)
Theorem adherence_data_partitions_logs (clock : Instant) (db : Store.Db)
    (p_user_id : string) :
  let data := Store.adherence_data db p_user_id clock in
  (forall a, In a data ->
     Store.total_doses a = Store.on_time_doses a + Store.missed_count a
     /\ 1 <= Store.total_doses a
     /\ 0 <= Store.on_time_doses a /\ 0 <= Store.missed_count a)
  /\ NoDup (map (fun a => (Store.date a, Store.medication_name a)) data)
  /\ fold_right Z.add 0 (map Store.total_doses data)
     = Z.of_nat (List.length (Store.selected db p_user_id clock)).
Proof.
  intros data. unfold data. rewrite data_eq.
  set (rows := Store.selected db p_user_id clock).
  split; [| split].
  - intros a Ha. apply in_map_iff in Ha. destruct Ha as [k [<- Hk]].
    apply (aggregate_counts clock db p_user_id k Hk).
  - rewrite map_map. simpl.
    rewrite (map_ext _ (fun k => k)) by (intros [d n]; reflexivity).
    rewrite map_id. apply NoDup_nodup.
  - rewrite map_map. cbn [Store.total_doses Store.aggregate].
    pose proof (sum_groups rows (fun _ => true) (fun _ => true)) as S.
    rewrite filter_all in S. cbn [andb] in S.
    rewrite S. apply count_all.
Qed.

Lemma adherence_data_partitions_logs_witness :
  let data := Store.adherence_data dbUneven "user-1" (clockAt day1 15 0 0) in
  exists a, In a data
    /\ Store.total_doses a = Store.on_time_doses a + Store.missed_count a
    /\ 1 <= Store.total_doses a.
Proof.
  intros data.
  assert (H : In (hd (Store.mkAdherenceData 0 0 0 "" 0) data) data)
    by (vm_compute; left; reflexivity).
  eexists. split; [exact H |].
  destruct (adherence_data_partitions_logs (clockAt day1 15 0 0) dbUneven
              "user-1") as (W & _).
  destruct (W _ H) as (W1 & W2 & _). split; assumption.
Defined.

(** X15: a log scheduled more than seven days ago, or a log of a medication
    that is not the user's, changes neither the rows the summary statement
    selects nor the rows of [adherence_data] it groups them into, from
    which all three aggregates are taken. *)
Theorem summary_ignores_other_logs (clock : Instant) (db : Store.Db)
    (p_user_id : string) (l : DoseLog) (next : nat) :
  scheduled_time l < clock - 7 * msPerDay
  \/ (forall m, In m (Store.medications db) ->
        med_id m = medication_id l -> med_user_id m <> p_user_id) ->
  let db' :=
    Store.mkDb (Store.medications db) (Store.dose_logs db ++ [l]) next in
  Store.selected db' p_user_id clock = Store.selected db p_user_id clock
  /\ Store.adherence_data db' p_user_id clock
     = Store.adherence_data db p_user_id clock.
Proof.
  intros H db'. unfold db'.
  assert (E : Store.selected
                (Store.mkDb (Store.medications db) (Store.dose_logs db ++ [l])
                   next) p_user_id clock
              = Store.selected db p_user_id clock).
  { unfold Store.selected, Store.join. cbn [Store.medications Store.dose_logs].
    rewrite flat_map_app, filter_app. cbn [flat_map].
    rewrite app_nil_r.
    rewrite <- (app_nil_r (filter _ (flat_map _ (Store.dose_logs db)))) at 2.
    f_equal.
    induction (Store.medications db) as [| m t IH]; [reflexivity |].
    cbn [filter].
    destruct (String.eqb_spec (med_id m) (medication_id l)) as [Hid | Hid].
    - cbn [map filter].
      assert (W : Store.in_window p_user_id clock (l, m) = false).
      { unfold Store.in_window. cbn [fst snd].
        destruct H as [Hold | Hother].
        - apply andb_false_iff. right. apply Z.leb_gt. exact Hold.
        - apply andb_false_iff. left. apply String.eqb_neq.
          apply Hother; [left; reflexivity | exact Hid]. }
      rewrite W. apply IH.
      destruct H as [Hold | Hother]; [left; exact Hold |].
      right. intros m' Hm'. apply Hother. right; exact Hm'.
    - apply IH.
      destruct H as [Hold | Hother]; [left; exact Hold |].
      right. intros m' Hm'. apply Hother. right; exact Hm'. }
  split; [exact E |].
  unfold Store.adherence_data. rewrite E. reflexivity.
Qed.

Lemma summary_ignores_other_logs_witness :
  scheduled_time oldLog < endOfWeek - 7 * msPerDay
  /\ Store.adherence_data
       (Store.mkDb (Store.medications dbWeek)
          (Store.dose_logs dbWeek ++ [oldLog]) 8) "user-1" endOfWeek
     = Store.adherence_data dbWeek "user-1" endOfWeek.
Proof.
  assert (H : scheduled_time oldLog < endOfWeek - 7 * msPerDay) by reflexivity.
  split; [exact H |].
  apply (summary_ignores_other_logs endOfWeek dbWeek "user-1" oldLog 8).
  left. exact H.
Defined.

(** *** Bounds *)

Lemma percent_bounds (a b : Z) :
  0 <= a <= b -> 0 < b ->
  (0 <= inject_Z a / inject_Z b * 100 <= 100)%Q.
Proof.
  intros Hab Hb.
  assert (Hb' : (0 < inject_Z b)%Q)
    by (change 0%Q with (inject_Z 0); rewrite <- Zlt_Qlt; exact Hb).
  assert (H0 : (0 <= inject_Z a / inject_Z b)%Q).
  { apply Qle_shift_div_l; [exact Hb' |]. rewrite Qmult_0_l.
    change 0%Q with (inject_Z 0). rewrite <- Zle_Qle. lia. }
  assert (H1 : (inject_Z a / inject_Z b <= 1)%Q).
  { apply Qle_shift_div_r; [exact Hb' |]. rewrite Qmult_1_l.
    rewrite <- Zle_Qle. lia. }
  split.
  - apply Qmult_le_0_compat; [exact H0 | discriminate].
  - setoid_replace 100%Q with (1 * 100)%Q at 2 by reflexivity.
    apply Qmult_le_compat_r; [exact H1 | discriminate].
Qed.

Lemma sum_bounds (l : list Q) :
  (forall q, In q l -> (0 <= q <= 100)%Q) ->
  (0 <= fold_right Qplus 0 l
   <= 100 * inject_Z (Z.of_nat (List.length l)))%Q.
Proof.
  induction l as [| q t IH]; intros H.
  - cbn. split; [apply Qle_refl | discriminate].
  - destruct (H q (or_introl eq_refl)) as [Q0 Q1].
    destruct (IH (fun q' Hq' => H q' (or_intror Hq'))) as [S0 S1].
    cbn [fold_right List.length]. rewrite Nat2Z.inj_succ.
    unfold Z.succ. rewrite inject_Z_plus. split.
    + apply (Qle_trans _ (0 + 0)); [discriminate |].
      apply Qplus_le_compat; assumption.
    + setoid_replace (100 * (inject_Z (Z.of_nat (List.length t)) + inject_Z 1))%Q
        with (100 + 100 * inject_Z (Z.of_nat (List.length t)))%Q by ring.
      apply Qplus_le_compat; assumption.
Qed.

Lemma avg_bounds (l : list Q) (q : Q) :
  (forall x, In x l -> (0 <= x <= 100)%Q) ->
  Store.avg l = Some q -> (0 <= q <= 100)%Q.
Proof.
  intros H E. destruct l as [| x t]; [discriminate |].
  injection E as <-.
  destruct (sum_bounds (x :: t) H) as [S0 S1].
  set (n := inject_Z (Z.of_nat (List.length (x :: t)))) in *.
  assert (Hn : (0 < n)%Q).
  { unfold n. change 0%Q with (inject_Z 0). rewrite <- Zlt_Qlt.
    cbn [List.length]. lia. }
  split.
  - apply Qle_shift_div_l; [exact Hn |]. rewrite Qmult_0_l. exact S0.
  - apply Qle_shift_div_r; [exact Hn | exact S1].
Qed.

(** X16: the two values the summary statement hands to [ROUND], the mean
    behind [weekly_adherence] and the rate of each row of [calendar_data],
    lie between 0 and 100. *)
Theorem summary_percentages_bounded (clock : Instant) (db : Store.Db)
    (p_user_id : string) :
  let data := Store.adherence_data db p_user_id clock in
  (forall q, Store.weekly_average data = Some q -> (0 <= q <= 100)%Q)
  /\ (forall a, In a data -> (0 <= Store.rate a <= 100)%Q).
Proof.
  intros data. unfold data. rewrite data_eq.
  set (rows := Store.selected db p_user_id clock).
  assert (R : forall k, In k (keys rows) ->
                (0 <= Store.rate (Store.aggregate rows k) <= 100)%Q).
  { intros k Hk.
    destruct (aggregate_counts clock db p_user_id k Hk) as (E & T & O & M).
    apply percent_bounds; fold rows in E, T, O, M; lia. }
  split.
  - intros q Hq. unfold Store.weekly_average in Hq.
    apply (fun B => avg_bounds _ _ B Hq). intros x Hx.
    rewrite map_map in Hx. apply in_map_iff in Hx.
    destruct Hx as [k [<- Hk]].
    destruct (aggregate_counts clock db p_user_id k Hk) as (_ & T & _).
    fold rows in T.
    destruct (Z.gtb_spec (Store.total_doses (Store.aggregate rows k)) 0);
      [apply R, Hk | lia].
  - intros a Ha. apply in_map_iff in Ha. destruct Ha as [k [<- Hk]].
    apply R, Hk.
Qed.

Lemma summary_percentages_bounded_witness :
  Store.weekly_average (Store.adherence_data dbWeek "user-1" endOfWeek)
  = Some (600 # 7)%Q
  /\ (0 <= 600 # 7 <= 100)%Q.
Proof.
  assert (H : Store.weekly_average
                (Store.adherence_data dbWeek "user-1" endOfWeek)
              = Some (600 # 7)%Q) by (vm_compute; reflexivity).
  split; [exact H |].
  destruct (summary_percentages_bounded endOfWeek dbWeek "user-1") as (W & _).
  exact (W _ H).
Defined.

(** X17: [get_adherence_summary] raises undefined_function on every call,
    whatever the tables, the user and the time, also for a user without
    any log: its call [ROUND(double precision, integer)] resolves to no
    function.  A call through the REST interface therefore ends in an
    error for every argument list.  The three aggregates of the statement
    are taken over no rows together, exactly when no log is selected. *)
Theorem summary_raises_on_every_call (clock : Instant) (db : Store.Db)
    (p_user_id : string) :
  let data := Store.adherence_data db p_user_id clock in
  let none := Store.selected db p_user_id clock = [] in
  Store.get_adherence_summary clock db p_user_id
  = Store.Err Store.UndefinedFunction
  /\ (forall args, exists e,
        Store.rpc_get_adherence_summary clock db args = Store.RpcErr e)
  /\ (Store.weekly_average data = None <-> none)
  /\ (Store.json_agg (Store.most_missed data) = None <-> none)
  /\ (data = [] <-> none).
Proof.
  intros data none. unfold data, none.
  split; [reflexivity |].
  split.
  { intros args. unfold Store.rpc_get_adherence_summary.
    destruct (Store.same_names _ _); [| eexists; reflexivity].
    destruct (Store.get args "p_user_id") as [[u | | | |] |];
      eexists; reflexivity. }
  rewrite data_eq.
  rewrite <- !(keys_nil_iff clock db p_user_id).
  set (rows := Store.selected db p_user_id clock).
  destruct (keys rows) as [| k ks] eqn:Ek.
  - repeat split; reflexivity.
  - repeat split; try discriminate; intros H; exfalso.
    unfold Store.most_missed, Store.json_agg in H.
    destruct (firstn 5 _) as [| x t] eqn:Ef; [| discriminate].
    apply (f_equal (@List.length _)) in Ef.
    rewrite length_firstn, (Permutation_length (sort_by_perm _ _)) in Ef.
    unfold Store.missed_by_name in Ef. rewrite length_map in Ef.
    destruct (nodup string_dec _) as [| n ns] eqn:En; [| simpl in Ef; lia].
    assert (Hin : In (snd k) (nodup string_dec
              (map Store.medication_name
                 (map (Store.aggregate rows) (k :: ks))))).
    { apply nodup_In. left. reflexivity. }
    rewrite En in Hin. destruct Hin.
Qed.

(** ** Recording from the pages *)

(** X18: the two pages call [log_dose] with the argument names
    [medication_id], [scheduled_time], [actual_time] (and [user_id]), which
    are not the parameter names of the function: the call reaches no
    function, nothing is stored, and only the optimistic flag is set.  The
    helper [logDose] of the client library passes the declared names and
    does reach [log_dose]. *)
Theorem page_handlers_never_store (auth_uid : option string)
    (user_id : string) (now clock : Instant)
    (justTaken : list DoseLogging.DoseKey) (db : Store.Db)
    (d : DoseLogging.ScheduledDose) (x : Reminders.ScheduledDose)
    (id : string) (scheduled actual : Instant) :
  DoseLogging.handleLogDose user_id now clock justTaken db d
  = (DoseLogging.ToastCouldNotLog Store.NoSuchFunction,
     DoseLogging.doseKey d :: justTaken, db)
  /\ Reminders.handleMarkAsTaken auth_uid now clock justTaken db x
     = (DoseLogging.ToastCouldNotLog Store.NoSuchFunction,
        Reminders.doseKey x :: justTaken, db)
  /\ Client.logDose auth_uid clock db id scheduled actual
     = match Store.log_dose auth_uid clock db id scheduled actual with
       | (Store.Ok json, db') => (Store.RpcOk json, db')
       | (Store.Err e, db') => (Store.RpcErr (Store.Raised e), db')
       end.
Proof. repeat split. Qed.

(** ** Recording, then looking again *)

Lemma find_not_none {A : Type} (f : A -> bool) (l : list A) (x : A) :
  In x l -> f x = true -> find f l <> None.
Proof.
  intros Hin Hf E. rewrite (find_none f l E x Hin) in Hf. discriminate.
Qed.

Lemma select_user_id_owner (db : Store.Db) (id owner : string) :
  Store.select_user_id db id = Some owner ->
  exists m, In m (Store.medications db) /\ med_id m = id
            /\ med_user_id m = owner.
Proof.
  unfold Store.select_user_id.
  destruct (find _ (Store.medications db)) as [m |] eqn:E; [| discriminate].
  intros H. injection H as <-. apply find_some in E. destruct E as [Hin Hid].
  apply String.eqb_eq in Hid. exists m. repeat split; assumption.
Qed.

(** X19: once the owner of a medication has recorded a dose through
    [log_dose], the dose-logging page finds the log when it reloads its
    logs later the same local day, whoever views the page: the list it
    regenerates from the reloaded logs holds the dose, classified as taken,
    with the badge of a taken dose and without its buttons. *)
Theorem recorded_dose_is_found_again (tz : Z) (owner : string)
    (viewer : option string) (clock now later : Instant) (db : Store.Db)
    (meds : list Medication) (m : Medication) (i : Z) :
  Store.select_user_id db (med_id m) = Some owner ->
  startOfDay tz later = startOfDay tz now ->
  In m meds ->
  0 <= i < frequency_per_day m ->
  let today := startOfDay tz now in
  let s := doseTime today (frequency_per_day m) i in
  let db' := snd (Store.log_dose (Some owner) clock db (med_id m) s now) in
  let logs := DoseLogging.fetchTodaysLogs tz viewer db' later in
  let d := DoseLogging.doseFor logs today later m i in
  In (loggedRow clock db (med_id m) s now) logs
  /\ In d (DoseLogging.generateScheduledDoses tz later meds logs)
  /\ DoseLogging.status d = DoseLogging.taken
  /\ DoseLogging.cardBadge [] [] d = DoseLogging.BadgeTaken
  /\ DoseLogging.offersButtons [] [] d = false.
Proof.
  intros Hown Hday Hmeds Hi today s db' logs d.
  set (row := loggedRow clock db (med_id m) s now).
  assert (Edb : db' = Store.mkDb (Store.medications db)
                        (Store.dose_logs db ++ [row])
                        (S (Store.next_id db))).
  { unfold db'. rewrite (log_dose_owner clock db (med_id m) s now owner Hown).
    reflexivity. }
  assert (Hin : In row logs).
  { unfold logs, DoseLogging.fetchTodaysLogs, Store.from_dose_logs_select.
    rewrite Edb. cbn [Store.dose_logs].
    apply filter_In. split.
    - apply filter_In. split; [apply in_or_app; right; left; reflexivity |].
      reflexivity.
    - cbn [timestamp_taken row loggedRow]. unfold endOfDay. rewrite Hday.
      pose proof (startOfDay_le tz now).
      apply andb_true_iff. split; [apply Z.leb_le | apply Z.leb_le]; lia. }
  assert (Hm : matchesDose m s row = true).
  { unfold matchesDose. apply (logMatches_refl row). }
  assert (Ht : DoseLogging.status d = DoseLogging.taken).
  { apply statusOf_taken_iff. exists row. split; assumption. }
  split; [exact Hin |]. split.
  { apply logging_doses_in. exists m, i. split; [exact Hmeds |].
    split; [apply in_doseIndices; exact Hi |].
    unfold d, today. rewrite Hday. reflexivity. }
  split; [exact Ht |].
  unfold DoseLogging.cardBadge, DoseLogging.offersButtons.
  rewrite Ht. split; reflexivity.
Qed.

Lemma recorded_dose_is_found_again_witness :
  let now := clockAt day0 8 5 0 in
  let later := clockAt day0 18 0 0 in
  let s := doseTime (startOfDay 0 now) (frequency_per_day aspirin) 0 in
  let db' := snd (Store.log_dose (Some "user-1"%string) now db0
                    (med_id aspirin) s now) in
  let logs := DoseLogging.fetchTodaysLogs 0 (Some "user-1"%string) db' later in
  let d := DoseLogging.doseFor logs (startOfDay 0 now) later aspirin 0 in
  Store.select_user_id db0 (med_id aspirin) = Some "user-1"%string
  /\ startOfDay 0 later = startOfDay 0 now
  /\ In aspirin [aspirin]
  /\ 0 <= 0 < frequency_per_day aspirin
  /\ In d (DoseLogging.generateScheduledDoses 0 later [aspirin] logs)
  /\ DoseLogging.status d = DoseLogging.taken.
Proof.
  intros now later s db' logs d.
  assert (Hown : Store.select_user_id db0 (med_id aspirin)
                 = Some "user-1"%string) by reflexivity.
  assert (Hday : startOfDay 0 later = startOfDay 0 now) by reflexivity.
  assert (Hm : In aspirin [aspirin]) by (left; reflexivity).
  assert (Hi : 0 <= 0 < frequency_per_day aspirin) by (cbn; lia).
  split; [exact Hown |]. split; [exact Hday |].
  split; [exact Hm |]. split; [exact Hi |].
  destruct (recorded_dose_is_found_again 0 "user-1" (Some "user-1"%string)
              now now later db0 [aspirin] aspirin 0 Hown Hday Hm Hi)
    as (_ & W1 & W2 & _).
  split; [exact W1 | exact W2].
Defined.

(** ** Labels of the dose-logging page *)

(** X20: the window of [isLate] is the window of the status late without its
    last instant: the two agree except exactly four hours after the
    scheduled time, when the status is still late and [isLate] is false. *)
Theorem isLate_vs_status (logs : list DoseLog) (now : Instant)
    (m : Medication) (s : Instant) :
  findDoseLog logs m s = None ->
  (DoseLogging.isLate now s = true
   <-> DoseLogging.statusOf logs now m s = DoseLogging.late
       /\ now <> s + 4 * msPerHour).
Proof.
  intros E. rewrite statusOf_late_iff.
  unfold DoseLogging.isLate, addHours. rewrite andb_true_iff, !Z.ltb_lt.
  split.
  - intros [H1 H2]. repeat split; try assumption; lia.
  - intros [[_ [H1 H2]] H3]. split; lia.
Qed.

Lemma isLate_vs_status_witness :
  findDoseLog [] aspirin (clockAt day0 8 0 0) = None
  /\ (DoseLogging.isLate (clockAt day0 12 0 0) (clockAt day0 8 0 0) = true
      <-> DoseLogging.statusOf [] (clockAt day0 12 0 0) aspirin
            (clockAt day0 8 0 0) = DoseLogging.late
          /\ clockAt day0 12 0 0 <> clockAt day0 8 0 0 + 4 * msPerHour).
Proof.
  assert (H : findDoseLog [] aspirin (clockAt day0 8 0 0) = None)
    by reflexivity.
  split; [exact H |].
  exact (isLate_vs_status [] (clockAt day0 12 0 0) aspirin (clockAt day0 8 0 0)
           H).
Defined.

(** X21: the line "Medication Taken (Late)" or "(On time)" under a logged dose
    is computed from the time of viewing alone: it reads "(Late)" exactly
    while the page is viewed strictly between the scheduled time and four
    hours after it, whatever the log says about the dose. *)
Theorem taken_label_ignores_log (logs : list DoseLog) (today now : Instant)
    (m : Medication) (i : Z) (log : DoseLog)
    (justTaken : list DoseLogging.DoseKey) :
  let d := DoseLogging.doseFor logs today now m i in
  let s := DoseLogging.scheduledTime d in
  In log logs ->
  matchesDose m s log = true ->
  (DoseLogging.takenLabel now justTaken d = Some DoseLogging.LabelLate
   <-> s < now < s + 4 * msPerHour)
  /\ (DoseLogging.takenLabel now justTaken d = Some DoseLogging.LabelOnTime
      <-> ~ s < now < s + 4 * msPerHour).
Proof.
  intros d s Hin Hm.
  assert (E : DoseLogging.status d = DoseLogging.taken).
  { apply statusOf_taken_iff. exists log. split; assumption. }
  unfold DoseLogging.takenLabel, DoseLogging.isLate, addHours.
  rewrite E. cbn [DoseLogging.isTaken orb]. fold s.
  destruct (Z.ltb_spec s now); destruct (Z.ltb_spec now (s + 4 * msPerHour));
    cbn [andb]; split; split; try discriminate; try lia; try reflexivity;
    intros; exfalso; lia.
Qed.

Lemma taken_label_ignores_log_witness :
  let d := DoseLogging.doseFor [takenLog] day0 (clockAt day0 9 0 0) aspirin 0 in
  In takenLog [takenLog]
  /\ matchesDose aspirin (DoseLogging.scheduledTime d) takenLog = true
  /\ taken_on_time takenLog = true
  /\ DoseLogging.takenLabel (clockAt day0 9 0 0) [] d
     = Some DoseLogging.LabelLate.
Proof.
  intros d.
  assert (Hin : In takenLog [takenLog]) by (left; reflexivity).
  assert (Hm : matchesDose aspirin (DoseLogging.scheduledTime d) takenLog
               = true) by (vm_compute; reflexivity).
  split; [exact Hin |]. split; [exact Hm |]. split; [reflexivity |].
  destruct (taken_label_ignores_log [takenLog] day0 (clockAt day0 9 0 0)
              aspirin 0 takenLog [] Hin Hm) as (W & _).
  apply W. vm_compute. split; reflexivity.
Defined.

(** ** The dashboard *)

(** X22: the dashboard never shows a computed summary.  Whatever arguments
    the call of [get_adherence_summary] is given, the response is an error:
    with the arguments the page passes the call reaches no function, and
    with the declared argument name, which the helper [getAdherenceSummary]
    of the client library passes, the function raises undefined_function.
    On an error [fetchAdherenceData] stores the summary of 0 percent with
    no missed medications and no days.  The page reads [data[0]] of an
    answer: the object the function is written to build has no [length]
    and would be stored as the zero summary too, and of a non-empty string
    the page would store the three fields of its first character, which
    are undefined. *)
Theorem dashboard_shows_zero_summary (tz : Z) (user_id : string)
    (now clock : Instant) (db : Store.Db) (args : Store.Payload) :
  (exists e, Store.rpc_get_adherence_summary clock db args = Store.RpcErr e)
  /\ Dashboard.storeAdherence (Store.rpc_get_adherence_summary clock db args)
     = Some Dashboard.zeroSummary
  /\ Store.rpc_get_adherence_summary clock db
       (Dashboard.summaryArgs tz user_id now)
     = Store.RpcErr Store.NoSuchFunction
  /\ Dashboard.fetchAdherenceData tz user_id now clock db
     = Some Dashboard.zeroSummary
  /\ Client.getAdherenceSummary (Some user_id) clock db
     = Some (Store.RpcErr (Store.Raised Store.UndefinedFunction))
  /\ (forall summary,
        Dashboard.storeAdherence (Store.RpcOk (Store.summary_json summary))
        = Some Dashboard.zeroSummary)
  /\ (forall c rest,
        Dashboard.storeAdherence (Store.RpcOk (Js.JsStr (String c rest)))
        = Some (Dashboard.mkAdherenceView None None None)).
Proof.
  assert (E : exists e,
            Store.rpc_get_adherence_summary clock db args = Store.RpcErr e).
  { unfold Store.rpc_get_adherence_summary.
    destruct (Store.same_names _ _); [| eexists; reflexivity].
    destruct (Store.get args "p_user_id") as [[u | | | |] |];
      eexists; reflexivity. }
  split; [exact E |].
  split; [destruct E as [e ->]; reflexivity |].
  split; [reflexivity |]. split; [reflexivity |]. split; [reflexivity |].
  split; [reflexivity |].
  intros c rest. unfold Dashboard.storeAdherence, Js.hasRows.
  cbn. reflexivity.
Qed.

(** X23: the heat map colours a day like the weekly figure (green from 90,
    yellow from 75, red below) as long as its rate is above zero; a day
    with a rate of zero is grey, like a day without data, where the weekly
    figure would be red. *)
Theorem heatmap_colour (p : Q) :
  ((0 < p)%Q ->
   Dashboard.getHeatmapColor (Some p) = Dashboard.getAdherenceColor p)
  /\ ((p <= 0)%Q ->
      Dashboard.getHeatmapColor (Some p) = Dashboard.Gray
      /\ Dashboard.getHeatmapColor (Some p) = Dashboard.getHeatmapColor None
      /\ Dashboard.getAdherenceColor p = Dashboard.Red).
Proof.
  unfold Dashboard.getHeatmapColor, Dashboard.getAdherenceColor.
  split.
  - intros Hp.
    destruct (Qle_bool 90 p); [reflexivity |].
    destruct (Qle_bool 75 p); [reflexivity |].
    destruct (Qle_bool p 0) eqn:E; [| reflexivity].
    apply Qle_bool_iff in E. exfalso. apply (Qlt_not_le _ _ Hp E).
  - intros Hp.
    assert (E0 : Qle_bool p 0 = true) by (apply Qle_bool_iff; exact Hp).
    assert (E90 : Qle_bool 90 p = false).
    { destruct (Qle_bool 90 p) eqn:E; [| reflexivity].
      apply Qle_bool_iff in E. pose proof (Qle_trans _ _ _ E Hp) as C.
      exfalso. revert C. apply Qlt_not_le. reflexivity. }
    assert (E75 : Qle_bool 75 p = false).
    { destruct (Qle_bool 75 p) eqn:E; [| reflexivity].
      apply Qle_bool_iff in E. pose proof (Qle_trans _ _ _ E Hp) as C.
      exfalso. revert C. apply Qlt_not_le. reflexivity. }
    rewrite E0, E90, E75. repeat split.
Qed.

Lemma heatmap_colour_witness :
  (0 < 80)%Q
  /\ Dashboard.getHeatmapColor (Some 80%Q) = Dashboard.getAdherenceColor 80.
Proof.
  assert (H : (0 < 80)%Q) by reflexivity.
  split; [exact H |].
  destruct (heatmap_colour 80) as (W & _). exact (W H).
Defined.

(** ** The reports page *)

(** X24: stepping through the weeks of a report keeps the length of the
    period.  From a period that ends no later than now, neither button
    leads to a period that ends in the future, and "Next Week" after
    "Previous Week" returns to the period one started from. *)
Theorem report_weeks (now : Instant) (r : Reports.Range) :
  Reports.currentEndDate r <= now ->
  let width x := Reports.currentEndDate x - Reports.currentStartDate x in
  width (Reports.handlePreviousWeek r) = width r
  /\ width (Reports.handleNextWeek now r) = width r
  /\ Reports.currentEndDate (Reports.handlePreviousWeek r) <= now
  /\ Reports.currentEndDate (Reports.handleNextWeek now r) <= now
  /\ Reports.handleNextWeek now (Reports.handlePreviousWeek r) = r
  /\ (Reports.handleNextWeek now r = r
      <-> now < Reports.currentEndDate r + 7 * msPerDay).
Proof.
  intros H width. destruct r as [a b]. cbn [Reports.currentEndDate] in H.
  unfold width, Reports.handlePreviousWeek, Reports.handleNextWeek,
    Reports.subWeeks, Reports.addWeeks, addDays, msPerDay.
  cbn [Reports.currentStartDate Reports.currentEndDate].
  repeat split.
  - lia.
  - destruct (Z.leb_spec (b + 7 * 1 * 86400000) now); cbn; lia.
  - lia.
  - destruct (Z.leb_spec (b + 7 * 1 * 86400000) now); cbn; lia.
  - destruct (Z.leb_spec (b + 7 * - (1) * 86400000 + 7 * 1 * 86400000) now);
      [f_equal; lia | lia].
  - destruct (Z.leb_spec (b + 7 * 1 * 86400000) now); [| lia].
    intros E. injection E as E1 E2. lia.
  - destruct (Z.leb_spec (b + 7 * 1 * 86400000) now); [lia | reflexivity].
Qed.

Lemma report_weeks_witness :
  let r := Reports.mkRange (day0 - 7 * msPerDay) (clockAt day0 9 0 0) in
  Reports.currentEndDate r <= clockAt day0 10 0 0
  /\ Reports.handleNextWeek (clockAt day0 10 0 0) (Reports.handlePreviousWeek r)
     = r.
Proof.
  intros r.
  assert (H : Reports.currentEndDate r <= clockAt day0 10 0 0)
    by (vm_compute; discriminate).
  split; [exact H |].
  destruct (report_weeks (clockAt day0 10 0 0) r H) as (_ & _ & _ & _ & W & _).
  exact W.
Defined.

Lemma find_unique_key {V : Type} (l : list (string * V)) (k : string) (v : V) :
  NoDup (map fst l) -> In (k, v) l ->
  find (fun kv => String.eqb (fst kv) k) l = Some (k, v).
Proof.
  induction l as [| [k' v'] t IH]; intros Hnd Hin; [destruct Hin |].
  cbn [find fst]. inversion Hnd as [| ? ? Hk' Ht]; subst.
  destruct Hin as [E | Hin].
  - injection E as -> ->. rewrite String.eqb_refl. reflexivity.
  - destruct (String.eqb_spec k' k) as [-> | _].
    + exfalso. apply Hk'. apply (in_map fst) in Hin. exact Hin.
    + apply IH; assumption.
Qed.

Lemma medicationMap_rev (meds : list Medication) :
  Reports.medicationMap meds
  = rev (map (fun med => (med_id med, med_name med)) meds).
Proof.
  unfold Reports.medicationMap.
  rewrite <- (app_nil_r (rev _)). generalize (@nil (string * string)).
  induction meds as [| m t IH]; intros acc; [reflexivity |].
  cbn [fold_left map rev]. rewrite IH, <- app_assoc. reflexivity.
Qed.

(** X25: in the CSV export the first cell of a row is the quoted name of the
    medication the log refers to, provided the medication is among those
    fetched (their ids being distinct) and has a name; a log of a
    medication that was not fetched is exported as "Unknown".  The export
    is refused exactly when there are no logs or no medications. *)
Theorem csv_names_the_medication (fmt : Instant -> string)
    (meds : list Medication) (log : DoseLog) :
  NoDup (map med_id meds) ->
  let row := Reports.csvRow fmt (Reports.medicationMap meds) log in
  (forall m, In m meds -> med_id m = medication_id log ->
     med_name m <> EmptyString ->
     hd EmptyString row = Reports.quoted (med_name m))
  /\ ((forall m, In m meds -> med_id m <> medication_id log) ->
      hd EmptyString row = Reports.quoted "Unknown")
  /\ List.length row = 5%nat
  /\ (forall logs, Reports.handleExportCSV fmt meds logs = None
                   <-> logs = [] \/ meds = []).
Proof.
  intros Hnd row. unfold row, Reports.csvRow, Reports.medicationName.
  cbn [hd]. rewrite medicationMap_rev.
  split; [| split; [| split]].
  - intros m Hm Hid Hname.
    rewrite (find_unique_key _ (medication_id log) (med_name m)).
    + cbn [snd]. destruct (String.eqb_spec (med_name m) EmptyString);
        [contradiction | reflexivity].
    + rewrite map_rev, map_map. cbn [fst].
      apply (Permutation_NoDup (Permutation_rev _)). exact Hnd.
    + apply -> in_rev. apply in_map_iff. exists m.
      split; [rewrite Hid; reflexivity | exact Hm].
  - intros Hno.
    destruct (find _ _) as [[k v] |] eqn:E; [| reflexivity].
    exfalso. apply find_some in E. destruct E as [Hin Hk].
    apply in_rev, in_map_iff in Hin. destruct Hin as [m [Em Hm]].
    injection Em as <- <-. cbn [fst] in Hk. apply String.eqb_eq in Hk.
    exact (Hno m Hm Hk).
  - reflexivity.
  - intros logs. unfold Reports.handleExportCSV.
    destruct logs as [| l t]; [split; [left; reflexivity | reflexivity] |].
    destruct meds as [| m t']; [split; [right; reflexivity | reflexivity] |].
    split; [discriminate | intros [E | E]; discriminate].
Qed.

Lemma csv_names_the_medication_witness :
  NoDup (map med_id [aspirin])
  /\ hd EmptyString
       (Reports.csvRow (fun _ => EmptyString) (Reports.medicationMap [aspirin])
          takenLog)
     = Reports.quoted (med_name aspirin).
Proof.
  assert (H : NoDup (map med_id [aspirin])).
  { constructor; [intros [] | constructor]. }
  split; [exact H |].
  destruct (csv_names_the_medication (fun _ => EmptyString) [aspirin] takenLog
              H) as (W & _).
  apply (W aspirin); [left; reflexivity | reflexivity | discriminate].
Defined.

(** ** What the pages fetch *)

Section SortLebFacts.
Context {A : Type} (leb : A -> A -> bool).

Lemma insert_leb_perm (x : A) (l : list A) :
  Permutation (insert_leb leb x l) (x :: l).
Proof.
  induction l as [| y t IH]; simpl; [reflexivity |].
  destruct (leb x y); [reflexivity |].
  rewrite IH. apply perm_swap.
Qed.

Lemma sort_leb_perm (l : list A) : Permutation (sort_leb leb l) l.
Proof.
  induction l as [| x t IH]; simpl; [reflexivity |].
  rewrite insert_leb_perm. apply perm_skip. exact IH.
Qed.

Lemma sort_leb_in (l : list A) (x : A) : In x (sort_leb leb l) <-> In x l.
Proof.
  split; apply Permutation_in;
    [| apply Permutation_sym]; apply sort_leb_perm.
Qed.

End SortLebFacts.

(** X26: row security is enabled neither for [medications] nor for
    [dose_logs], and the queries of the pages name no user: a page receives
    the rows of every user, whoever calls, signed in or not.  The
    medications it receives are exactly the stored medications that pass
    the date filter of its query, whatever the collation; the logs it
    receives are exactly the stored logs in the range of its query. *)
Theorem pages_fetch_all_users_rows (name_leb : string -> string -> bool)
    (tz : Z) (auth_uid other : option string) (db : Store.Db)
    (now : Instant) :
  (forall m,
     In m (DoseLogging.fetchMedications name_leb auth_uid db now)
     <-> In m (Store.medications db) /\ DoseLogging.activeToday now m = true)
  /\ (forall m,
        In m (Reminders.fetchMedications name_leb auth_uid db now)
        <-> In m (Store.medications db) /\ Reminders.fetchable now m = true)
  /\ (forall l,
        In l (DoseLogging.fetchTodaysLogs tz auth_uid db now)
        <-> In l (Store.dose_logs db)
            /\ startOfDay tz now <= timestamp_taken l <= endOfDay tz now)
  /\ (forall l,
        In l (Reminders.fetchDoseLogs tz auth_uid db now)
        <-> In l (Store.dose_logs db)
            /\ startOfDay tz now <= scheduled_time l
               <= endOfDay tz (addDays now 7))
  /\ DoseLogging.fetchMedications name_leb other db now
     = DoseLogging.fetchMedications name_leb auth_uid db now
  /\ Reminders.fetchMedications name_leb other db now
     = Reminders.fetchMedications name_leb auth_uid db now
  /\ DoseLogging.fetchTodaysLogs tz other db now
     = DoseLogging.fetchTodaysLogs tz auth_uid db now
  /\ Reminders.fetchDoseLogs tz other db now
     = Reminders.fetchDoseLogs tz auth_uid db now.
Proof.
  assert (Em : forall u, Store.from_medications_select u db
                         = Store.medications db).
  { intros u. unfold Store.from_medications_select.
    change (negb (Store.row_security "medications")) with true.
    apply filter_all. }
  assert (El : forall u, Store.from_dose_logs_select u db
                         = Store.dose_logs db).
  { intros u. unfold Store.from_dose_logs_select.
    change (negb (Store.row_security "dose_logs")) with true.
    apply filter_all. }
  unfold DoseLogging.fetchMedications, Reminders.fetchMedications,
    DoseLogging.fetchTodaysLogs, Reminders.fetchDoseLogs.
  rewrite !Em, !El.
  split; [| split; [| split; [| split]]].
  - intros m. rewrite sort_leb_in, filter_In. tauto.
  - intros m. rewrite sort_leb_in, filter_In. tauto.
  - intros l. rewrite filter_In, andb_true_iff, !Z.leb_le. tauto.
  - intros l. rewrite filter_In, andb_true_iff, !Z.leb_le. tauto.
  - repeat split; reflexivity.
Qed.

(** The logs of [aspirin], a medication of user-1, as the dose-logging page
    of user-2 and of a visitor who is not signed in fetches them. *)
Example other_users_fetch_the_log :
  Store.select_user_id dbOnTime "med-1" = Some "user-1"%string
  /\ DoseLogging.fetchTodaysLogs 0 (Some "user-2"%string) dbOnTime
       (clockAt day0 9 0 0) = [takenLog]
  /\ DoseLogging.fetchTodaysLogs 0 None dbOnTime (clockAt day0 9 0 0)
     = [takenLog].
Proof. vm_compute. repeat split; reflexivity. Qed.
